(** * k8s-mcp-server: the resource operation gateway ([src/main.py])

    A shallow embedding of [call_tool], the dispatcher behind the four
    operations [kubectl_apply], [kubectl_get], [kubectl_describe] and
    [kubectl_delete], followed by the properties of it that the design
    document states.

    Conventions of the embedding.
    - A Python value that reaches the gateway from outside (an entry of the
      argument bag, a decoded manifest document) is a [value]: None, a
      boolean, an integer, a string, a list or a dict with string keys.
    - A string is a sequence of code points below 256.
    - The YAML decoder, the batch creator and the typed control-plane
      clients are collaborators: an [Env] gives what each of them answers.
    - A computation is a pair of its result (an exception or a value) and
      the control-plane calls it made, in order. *)

From Stdlib Require Import ZArith String Ascii List Bool.
From stdpp Require Import base strings list gmap pretty.

Set Warnings "-register-all".

Local Open Scope string_scope.
Local Open Scope Z_scope.

(** ** Python values *)

Inductive value : Type :=
| VNone
| VBool (b : bool)
| VInt (z : Z)
| VStr (s : string)
| VList (items : list value)
| VDict (entries : list (string * value)).

(** [bool(v)]: None, False, 0, the empty string, list and dict are false. *)
Definition truthy (v : value) : bool :=
  match v with
  | VNone => false
  | VBool b => b
  | VInt z => negb (z =? 0)
  | VStr s => negb (String.eqb s "")
  | VList l => match l with [] => false | _ :: _ => true end
  | VDict d => match d with [] => false | _ :: _ => true end
  end.

(** [type(v).__name__], as it appears in the text of an AttributeError. *)
Definition type_name (v : value) : string :=
  match v with
  | VNone => "NoneType"
  | VBool _ => "bool"
  | VInt _ => "int"
  | VStr _ => "str"
  | VList _ => "list"
  | VDict _ => "dict"
  end.

(** ** Strings *)

(** [str.lower] on one code point below 256: A..Z, and the upper-case
    letters of Latin-1 (192..222 apart from the multiplication sign 215). *)
Definition lower_char (c : ascii) : ascii :=
  let n := nat_of_ascii c in
  if ((65 <=? n)%nat && (n <=? 90)%nat)
     || ((192 <=? n)%nat && (n <=? 222)%nat && negb (n =? 215)%nat)
  then ascii_of_nat (n + 32) else c.

Fixpoint lower (s : string) : string :=
  match s with
  | EmptyString => EmptyString
  | String c s' => String (lower_char c) (lower s')
  end.

(** [x in xs] for a string [x] and a list of string literals. *)
Definition str_in (x : string) (xs : list string) : bool :=
  existsb (String.eqb x) xs.

(** [sub in s] for strings. *)
Fixpoint contains (sub s : string) : bool :=
  if String.prefix sub s then true
  else match s with
       | EmptyString => false
       | String _ s' => contains sub s'
       end.

(** [s.split(sep)] for a one-character separator. *)
Fixpoint split (sep : ascii) (s : string) : list string :=
  match s with
  | EmptyString => [EmptyString]
  | String c s' =>
      if Ascii.eqb c sep then EmptyString :: split sep s'
      else match split sep s' with
           | [] => [String c EmptyString]
           | w :: ws => String c w :: ws
           end
  end.

(** [str(n)] for an integer. *)
Definition str_int (z : Z) : string := pretty z.

(** [str(x)] where [x] is a string or None. *)
Definition str_opt (o : option string) : string :=
  match o with Some s => s | None => "None" end.

(** [str(x)] where [x] is an integer or None. *)
Definition str_opt_int (o : option Z) : string :=
  match o with Some z => str_int z | None => "None" end.

(** ** Exceptions and computations *)

Inductive exn_class : Type :=
| AttributeError
| TypeError
| IndexError
| ValueError
| LibraryError.    (* raised inside a collaborator: YAMLError, ApiException, ... *)

(** An exception: its class and [str(e)]. Every class above derives from
    [Exception], so [except Exception] catches all of them. *)
Record exn : Type := Exn { exn_kind : exn_class; exn_str : string }.

(** The calls the gateway makes on its control-plane collaborators. *)
Inductive Call : Type :=
| create_from_yaml_call (yaml_objects : list value) (namespace : value)
| read_namespaced_pod_call (name namespace : value)
| list_namespaced_pod_call (namespace : value)
| read_namespaced_deployment_call (name namespace : value)
| list_namespaced_deployment_call (namespace : value)
| read_namespaced_service_call (name namespace : value)
| list_namespaced_service_call (namespace : value)
| read_node_call (name : value)
| list_node_call
| read_namespace_call (name : value)
| list_namespace_call
| delete_namespaced_pod_call (name namespace : value)
| delete_namespaced_deployment_call (name namespace : value)
| delete_namespaced_service_call (name namespace : value).

(** A computation: how it ends, and the calls made until then. *)
Definition M (A : Type) : Type := (exn + A) * list Call.

Definition ret {A} (a : A) : M A := (inr a, []).
Definition raise {A} (e : exn) : M A := (inl e, []).

Definition bind {A B} (m : M A) (k : A -> M B) : M B :=
  match m with
  | (inl e, tr) => (inl e, tr)
  | (inr a, tr) => let '(r, tr') := k a in (r, (tr ++ tr')%list)
  end.

(** One call of a collaborator, with the answer the environment gives. *)
Definition invoke {A} (c : Call) (answer : exn + A) : M A := (answer, [c]).

(** [try: m  except Exception as e: h e]. *)
Definition try_except {A} (m : M A) (h : exn -> M A) : M A :=
  match m with
  | (inl e, tr) => let '(r, tr') := h e in (r, (tr ++ tr')%list)
  | (inr a, tr) => (inr a, tr)
  end.

Notation "'let*' x ':=' m 'in' k" := (bind m (fun x => k))
  (at level 10, x name, m at level 100, k at level 200).

Definition outcome {A} (m : M A) : exn + A := fst m.
Definition calls {A} (m : M A) : list Call := snd m.

(** Attribute access [o.attr] on an object that may be None. *)
Definition getattr {A} (o : option A) (attr : string) : M A :=
  match o with
  | Some a => ret a
  | None => raise (Exn AttributeError
                     ("'NoneType' object has no attribute '" ++ attr ++ "'"))
  end.

(** [for x in o] on a list that may be None. *)
Definition iter {A} (o : option (list A)) : M (list A) :=
  match o with
  | Some l => ret l
  | None => raise (Exn TypeError "'NoneType' object is not iterable")
  end.

(** The value bound to [key] in a dict, given as its entries in order. *)
Fixpoint assoc {A} (key : string) (d : list (string * A)) : option A :=
  match d with
  | [] => None
  | (k, v) :: d' => if String.eqb k key then Some v else assoc key d'
  end.

(** [v.get(key, dflt)] on a value: only a dict has [get]. *)
Definition value_get (v : value) (key : string) (dflt : value) : M value :=
  match v with
  | VDict d => ret (default dflt (assoc key d))
  | _ => raise (Exn AttributeError
                  ("'" ++ type_name v ++ "' object has no attribute 'get'"))
  end.

(** [v.lower()] on a value: only a string has [lower]. *)
Definition value_lower (v : value) : M string :=
  match v with
  | VStr s => ret (lower s)
  | _ => raise (Exn AttributeError
                  ("'" ++ type_name v ++ "' object has no attribute 'lower'"))
  end.

(** ** [json.dumps(v, indent=2, default=str)]

    Every value the gateway serialises is built from None, booleans,
    integers, strings, lists and string-keyed dicts, so [default] is never
    consulted. Strings are written with [ensure_ascii]: a code point
    outside the range 32..126 is escaped. *)

Definition dquote : string := String (ascii_of_nat 34) EmptyString.
Definition newline : string := String (ascii_of_nat 10) EmptyString.

Definition hex_digit (n : nat) : ascii :=
  if (n <? 10)%nat then ascii_of_nat (48 + n) else ascii_of_nat (87 + n).

Definition escape_char (c : ascii) : string :=
  let n := nat_of_ascii c in
  if (n =? 34)%nat then "\" ++ dquote
  else if (n =? 92)%nat then "\\"
  else if (n =? 8)%nat then "\b"
  else if (n =? 12)%nat then "\f"
  else if (n =? 10)%nat then "\n"
  else if (n =? 13)%nat then "\r"
  else if (n =? 9)%nat then "\t"
  else if ((32 <=? n)%nat && (n <=? 126)%nat) then String c EmptyString
  else "\u00" ++ String (hex_digit (n / 16)) (String (hex_digit (n mod 16)) EmptyString).

Fixpoint escape (s : string) : string :=
  match s with
  | EmptyString => EmptyString
  | String c s' => escape_char c ++ escape s'
  end.

Definition json_string (s : string) : string := dquote ++ escape s ++ dquote.

Fixpoint spaces (n : nat) : string :=
  match n with O => EmptyString | S n' => String " " (spaces n') end.

(** The line break before an item at nesting depth [level]. *)
Definition newline_indent (level : nat) : string := newline ++ spaces (2 * level).

Fixpoint dumps_at (level : nat) (v : value) : string :=
  match v with
  | VNone => "null"
  | VBool true => "true"
  | VBool false => "false"
  | VInt z => str_int z
  | VStr s => json_string s
  | VList [] => "[]"
  | VList (x :: xs) =>
      "[" ++ newline_indent (S level) ++ dumps_at (S level) x
      ++ (fix rest (l : list value) : string :=
            match l with
            | [] => EmptyString
            | y :: l' => "," ++ newline_indent (S level) ++ dumps_at (S level) y ++ rest l'
            end) xs
      ++ newline_indent level ++ "]"
  | VDict [] => "{}"
  | VDict ((k, x) :: es) =>
      "{" ++ newline_indent (S level) ++ json_string k ++ ": " ++ dumps_at (S level) x
      ++ (fix rest (l : list (string * value)) : string :=
            match l with
            | [] => EmptyString
            | (k', y) :: l' =>
                "," ++ newline_indent (S level) ++ json_string k' ++ ": "
                ++ dumps_at (S level) y ++ rest l'
            end) es
      ++ newline_indent level ++ "}"
  end.

Definition json_dumps (v : value) : string := dumps_at 0 v.

(** ** [str(v)] and [repr(v)], as an f-string renders a value *)

(** Code points that [repr] writes as an escape: control characters,
    127..160 and the soft hyphen 173. *)
Definition printable (n : nat) : bool :=
  (32 <=? n)%nat && negb ((127 <=? n)%nat && (n <=? 160)%nat) && negb (n =? 173)%nat.

Definition repr_char (quote : ascii) (c : ascii) : string :=
  let n := nat_of_ascii c in
  if (n =? 92)%nat then "\\"
  else if Ascii.eqb c quote then String "\" (String c EmptyString)
  else if (n =? 10)%nat then "\n"
  else if (n =? 13)%nat then "\r"
  else if (n =? 9)%nat then "\t"
  else if printable n then String c EmptyString
  else "\x" ++ String (hex_digit (n / 16)) (String (hex_digit (n mod 16)) EmptyString).

Fixpoint repr_chars (quote : ascii) (s : string) : string :=
  match s with
  | EmptyString => EmptyString
  | String c s' => repr_char quote c ++ repr_chars quote s'
  end.

Fixpoint has_char (c : ascii) (s : string) : bool :=
  match s with
  | EmptyString => false
  | String c' s' => Ascii.eqb c' c || has_char c s'
  end.

(** [repr(s)]: single quotes, unless the text holds one and no double quote. *)
Definition repr_str (s : string) : string :=
  let q := if has_char "'" s && negb (has_char (ascii_of_nat 34) s)
           then ascii_of_nat 34 else "'"%char in
  String q (repr_chars q s) ++ String q EmptyString.

Fixpoint repr (v : value) : string :=
  match v with
  | VNone => "None"
  | VBool true => "True"
  | VBool false => "False"
  | VInt z => str_int z
  | VStr s => repr_str s
  | VList [] => "[]"
  | VList (x :: xs) =>
      "[" ++ repr x
      ++ (fix rest (l : list value) : string :=
            match l with
            | [] => EmptyString
            | y :: l' => ", " ++ repr y ++ rest l'
            end) xs
      ++ "]"
  | VDict [] => "{}"
  | VDict ((k, x) :: es) =>
      "{" ++ repr_str k ++ ": " ++ repr x
      ++ (fix rest (l : list (string * value)) : string :=
            match l with
            | [] => EmptyString
            | (k', y) :: l' => ", " ++ repr_str k' ++ ": " ++ repr y ++ rest l'
            end) es
      ++ "}"
  end.

Definition str (v : value) : string :=
  match v with
  | VStr s => s
  | _ => repr v
  end.

(** ** Control-plane objects

    The classes of the typed client, reduced to the attributes the gateway
    reads. An attribute the client declares optional is an [option]; one it
    declares required has the plain type. *)

Definition str_dict : Type := list (string * string).

Record V1ObjectMeta : Type := {
  meta_name : option string;
  meta_namespace : option string;
  meta_labels : option str_dict;
  meta_annotations : option str_dict;
  meta_creation_timestamp : option string   (* [str] of the datetime *)
}.

Record V1ContainerStatus : Type := {
  cs_ready : bool;
  cs_restart_count : Z;
  cs_state : string                         (* [str(cs.state)] *)
}.

(** Pod, deployment and node conditions: [type], [status], [reason]. *)
Record V1Condition : Type := {
  cond_type : string;
  cond_status : string;
  cond_reason : option string
}.

Record V1Container : Type := {
  container_name : string;
  container_image : option string
}.

Record V1PodSpec : Type := {
  podspec_node_name : option string;
  podspec_containers : list V1Container
}.

Record V1PodStatus : Type := {
  podstatus_phase : option string;
  podstatus_pod_ip : option string;
  podstatus_container_statuses : option (list V1ContainerStatus);
  podstatus_conditions : option (list V1Condition)
}.

Record V1Pod : Type := {
  pod_metadata : option V1ObjectMeta;
  pod_spec : option V1PodSpec;
  pod_status : option V1PodStatus
}.

Record V1DeploymentSpec : Type := {
  depspec_replicas : option Z;
  depspec_selector_match_labels : option str_dict;  (* [selector] is required *)
  depspec_strategy : option (option string)         (* the strategy, then its [type] *)
}.

Record V1DeploymentStatus : Type := {
  depstatus_ready_replicas : option Z;
  depstatus_updated_replicas : option Z;
  depstatus_available_replicas : option Z;
  depstatus_conditions : option (list V1Condition)
}.

Record V1Deployment : Type := {
  dep_metadata : option V1ObjectMeta;
  dep_spec : option V1DeploymentSpec;
  dep_status : option V1DeploymentStatus
}.

Record V1ServicePort : Type := {
  sport_port : Z;
  sport_protocol : option string;
  sport_target_port : string                (* [str(p.target_port)] *)
}.

Record V1ServiceSpec : Type := {
  svcspec_type : option string;
  svcspec_cluster_ip : option string;
  svcspec_external_i_ps : option (list string);
  svcspec_ports : option (list V1ServicePort);
  svcspec_selector : option str_dict
}.

Record V1Service : Type := {
  svc_metadata : option V1ObjectMeta;
  svc_spec : option V1ServiceSpec
}.

Record V1NodeAddress : Type := {
  addr_type : string;
  addr_address : string
}.

Record V1NodeSystemInfo : Type := {
  info_kubelet_version : string;
  info_os_image : string;
  info_container_runtime_version : string
}.

Record V1NodeStatus : Type := {
  nodestatus_conditions : option (list V1Condition);
  nodestatus_addresses : option (list V1NodeAddress);
  nodestatus_node_info : option V1NodeSystemInfo;
  nodestatus_capacity : option str_dict;
  nodestatus_allocatable : option str_dict
}.

Record V1Node : Type := {
  node_metadata : option V1ObjectMeta;
  node_status : option V1NodeStatus
}.

Record V1Namespace : Type := {
  ns_metadata : option V1ObjectMeta;
  ns_status : option (option string)        (* the status, then its [phase] *)
}.

(** ** The collaborators *)

(** What the YAML decoder makes of a text: its documents in order, or the
    exception raised while reading them all. *)
Inductive YamlStream : Type :=
| YamlDocs (docs : list value)
| YamlError (e : exn).

Record Env : Type := {
  (* yaml *)
  yaml_stream : string -> YamlStream;
  (* the exception [yaml.safe_load] raises on a text that does not hold
     exactly one well-formed document, or none *)
  yaml_single_error : string -> exn;
  (* kubernetes.utils *)
  create_from_yaml : list value -> value -> exn + unit;
  (* CoreV1Api and AppsV1Api; a list call answers with its [items] *)
  read_namespaced_pod : value -> value -> exn + V1Pod;
  list_namespaced_pod : value -> exn + list V1Pod;
  read_namespaced_deployment : value -> value -> exn + V1Deployment;
  list_namespaced_deployment : value -> exn + list V1Deployment;
  read_namespaced_service : value -> value -> exn + V1Service;
  list_namespaced_service : value -> exn + list V1Service;
  read_node : value -> exn + V1Node;
  list_node : exn + list V1Node;
  read_namespace : value -> exn + V1Namespace;
  list_namespace : exn + list V1Namespace;
  delete_namespaced_pod : value -> value -> exn + unit;
  delete_namespaced_deployment : value -> value -> exn + unit;
  delete_namespaced_service : value -> value -> exn + unit
}.

(** The decoder reads from a string; any other object is asked for a
    [read] method it does not have. *)
Definition not_a_stream {A} (v : value) : M A :=
  raise (Exn AttributeError
           ("'" ++ type_name v ++ "' object has no attribute 'read'")).

(** [list(yaml.safe_load_all(content))]. *)
Definition safe_load_all (env : Env) (content : value) : M (list value) :=
  match content with
  | VStr text =>
      match yaml_stream env text with
      | YamlDocs docs => ret docs
      | YamlError e => raise e
      end
  | _ => not_a_stream content
  end.

(** [yaml.safe_load(content)]: the decoder composes the first document and
    then requires the end of the stream. It gives the only document of the
    stream, None for a stream without documents, and raises otherwise. *)
Definition safe_load (env : Env) (content : value) : M value :=
  match content with
  | VStr text =>
      match yaml_stream env text with
      | YamlDocs [] => ret VNone
      | YamlDocs [doc] => ret doc
      | YamlDocs (_ :: _ :: _) => raise (yaml_single_error env text)
      | YamlError _ => raise (yaml_single_error env text)
      end
  | _ => not_a_stream content
  end.

(** ** Helpers for the expressions of [call_tool] *)

Fixpoint mapM {A B} (f : A -> M B) (l : list A) : M (list B) :=
  match l with
  | [] => ret []
  | x :: l' =>
      let* y := f x in
      let* ys := mapM f l' in
      ret (y :: ys)
  end.

Definition opt_str (o : option string) : value :=
  match o with Some s => VStr s | None => VNone end.

Definition opt_int (o : option Z) : value :=
  match o with Some z => VInt z | None => VNone end.

Definition opt_dict (o : option str_dict) : value :=
  match o with
  | Some d => VDict (map (fun kv => (fst kv, VStr (snd kv))) d)
  | None => VNone
  end.

(** [x or 0] for an optional integer. *)
Definition or_zero (o : option Z) : Z := default 0 o.

(** [sum(xs)] for integers. *)
Definition sum_ints (xs : list Z) : Z := fold_left Z.add xs 0.

(** The [ready] fraction of a pod:
    [f"{sum(1 for c in (cs or []) if c.ready)}/{len(cs or [])}"]. *)
Definition pod_ready (cs : option (list V1ContainerStatus)) : string :=
  let l := default [] cs in
  str_int (sum_ints (map (fun _ => 1) (List.filter cs_ready l)))
  ++ "/" ++ str_int (Z.of_nat (length l)).

(** [sum(c.restart_count for c in (cs or []))]. *)
Definition pod_restarts (cs : option (list V1ContainerStatus)) : Z :=
  sum_ints (map cs_restart_count (default [] cs)).

(** ** [kubectl_get]: one summary record per object *)

Definition pod_summary (namespace : value) (pod : V1Pod) : M value :=
  let* metadata := getattr (pod_metadata pod) "name" in
  let* status := getattr (pod_status pod) "phase" in
  let* spec := getattr (pod_spec pod) "node_name" in
  ret (VDict [
    ("name", opt_str (meta_name metadata));
    ("namespace", namespace);
    ("status", opt_str (podstatus_phase status));
    ("ready", VStr (pod_ready (podstatus_container_statuses status)));
    ("restarts", VInt (pod_restarts (podstatus_container_statuses status)));
    ("node", opt_str (podspec_node_name spec))
  ]).

Definition deployment_summary (namespace : value) (dep : V1Deployment) : M value :=
  let* metadata := getattr (dep_metadata dep) "name" in
  let* status := getattr (dep_status dep) "ready_replicas" in
  let* spec := getattr (dep_spec dep) "replicas" in
  ret (VDict [
    ("name", opt_str (meta_name metadata));
    ("namespace", namespace);
    ("ready", VStr (str_int (or_zero (depstatus_ready_replicas status))
                    ++ "/" ++ str_opt_int (depspec_replicas spec)));
    ("up_to_date", VInt (or_zero (depstatus_updated_replicas status)));
    ("available", VInt (or_zero (depstatus_available_replicas status)))
  ]).

(** [svc.spec.external_i_ps or "none"]. *)
Definition external_ip (o : option (list string)) : value :=
  match o with
  | Some (ip :: ips) => VList (map VStr (ip :: ips))
  | _ => VStr "none"
  end.

Definition service_summary (namespace : value) (svc : V1Service) : M value :=
  let* metadata := getattr (svc_metadata svc) "name" in
  let* spec := getattr (svc_spec svc) "type" in
  ret (VDict [
    ("name", opt_str (meta_name metadata));
    ("namespace", namespace);
    ("type", opt_str (svcspec_type spec));
    ("cluster_ip", opt_str (svcspec_cluster_ip spec));
    ("external_ip", external_ip (svcspec_external_i_ps spec));
    ("ports", VList (map (fun p => VStr (str_int (sport_port p) ++ "/"
                                         ++ str_opt (sport_protocol p)))
                         (default [] (svcspec_ports spec))))
  ]).

(** [{c.type: c.status for c in cs}.get(key)]: the last entry wins. *)
Definition conditions_get (cs : list V1Condition) (key : string) : option string :=
  fold_left (fun acc c => if String.eqb (cond_type c) key
                          then Some (cond_status c) else acc) cs None.

(** [label.split("/")[1]]. *)
Definition role_of_label (label : string) : M value :=
  match split "/" label with
  | _ :: role :: _ => ret (VStr role)
  | _ => raise (Exn IndexError "list index out of range")
  end.

(** [[label.split("/")[1] for label in labels.keys()
      if "node-role.kubernetes.io" in label] or ["<none>"]]. *)
Definition node_roles (labels : str_dict) : M value :=
  let* roles := mapM role_of_label
                  (List.filter (contains "node-role.kubernetes.io")
                               (map fst labels)) in
  ret (VList (match roles with [] => [VStr "<none>"] | _ :: _ => roles end)).

(** [next((a.address for a in addresses if a.type == "InternalIP"), "")]. *)
Definition internal_ip (addresses : list V1NodeAddress) : string :=
  match List.filter (fun a => String.eqb (addr_type a) "InternalIP") addresses with
  | a :: _ => addr_address a
  | [] => ""
  end.

Definition node_summary (node : V1Node) : M value :=
  let* status := getattr (node_status node) "conditions" in
  let* cs := iter (nodestatus_conditions status) in
  let* metadata := getattr (node_metadata node) "name" in
  let* labels := getattr (meta_labels metadata) "keys" in
  let* roles := node_roles labels in
  let* info := getattr (nodestatus_node_info status) "kubelet_version" in
  let* addresses := iter (nodestatus_addresses status) in
  ret (VDict [
    ("name", opt_str (meta_name metadata));
    ("status", VStr (match conditions_get cs "Ready" with
                     | Some "True" => "Ready"
                     | _ => "NotReady"
                     end));
    ("roles", roles);
    ("version", VStr (info_kubelet_version info));
    ("internal_ip", VStr (internal_ip addresses))
  ]).

Definition namespace_summary (ns : V1Namespace) : M value :=
  let* metadata := getattr (ns_metadata ns) "name" in
  let* phase := getattr (ns_status ns) "phase" in
  ret (VDict [
    ("name", opt_str (meta_name metadata));
    ("status", opt_str phase);
    ("age", VStr (str_opt (meta_creation_timestamp metadata)))
  ]).

(** The body of the [try] of [kubectl_get] up to the serialisation:
    [Some result] when a branch filled [result], [None] when the token
    fell through to the final [else]. *)
Definition get_result (env : Env) (resource_type : string)
    (namespace name : value) : M (option (list value)) :=
  if str_in resource_type ["pod"; "pods"] then
    if truthy name then
      let* pod := invoke (read_namespaced_pod_call name namespace)
                         (read_namespaced_pod env name namespace) in
      let* s := pod_summary namespace pod in
      ret (Some [s])
    else
      let* pods := invoke (list_namespaced_pod_call namespace)
                          (list_namespaced_pod env namespace) in
      let* ss := mapM (pod_summary namespace) pods in
      ret (Some ss)
  else if str_in resource_type ["deployment"; "deployments"] then
    if truthy name then
      let* dep := invoke (read_namespaced_deployment_call name namespace)
                         (read_namespaced_deployment env name namespace) in
      let* s := deployment_summary namespace dep in
      ret (Some [s])
    else
      let* deployments := invoke (list_namespaced_deployment_call namespace)
                                 (list_namespaced_deployment env namespace) in
      let* ss := mapM (deployment_summary namespace) deployments in
      ret (Some ss)
  else if str_in resource_type ["service"; "services"; "svc"] then
    if truthy name then
      let* svc := invoke (read_namespaced_service_call name namespace)
                         (read_namespaced_service env name namespace) in
      let* s := service_summary namespace svc in
      ret (Some [s])
    else
      let* services := invoke (list_namespaced_service_call namespace)
                              (list_namespaced_service env namespace) in
      let* ss := mapM (service_summary namespace) services in
      ret (Some ss)
  else if str_in resource_type ["node"; "nodes"] then
    if truthy name then
      let* node := invoke (read_node_call name) (read_node env name) in
      let* s := node_summary node in
      ret (Some [s])
    else
      let* nodes := invoke list_node_call (list_node env) in
      let* ss := mapM node_summary nodes in
      ret (Some ss)
  else if str_in resource_type ["namespace"; "namespaces"; "ns"] then
    if truthy name then
      let* ns := invoke (read_namespace_call name) (read_namespace env name) in
      let* s := namespace_summary ns in
      ret (Some [s])
    else
      let* namespaces := invoke list_namespace_call (list_namespace env) in
      let* ss := mapM namespace_summary namespaces in
      ret (Some ss)
  else ret None.

(** ** [kubectl_describe]: one detail record *)

Definition condition_record (c : V1Condition) : value :=
  VDict [("type", VStr (cond_type c)); ("status", VStr (cond_status c));
         ("reason", opt_str (cond_reason c))].

(** [zip(containers, statuses or [None] * len(containers))]. *)
Definition zip_statuses (containers : list V1Container)
    (statuses : option (list V1ContainerStatus))
    : list (V1Container * option V1ContainerStatus) :=
  match statuses with
  | Some (cs :: css) => combine containers (map Some (cs :: css))
  | _ => map (fun c => (c, None)) containers
  end.

Definition container_record (p : V1Container * option V1ContainerStatus) : value :=
  let '(c, cs) := p in
  VDict [
    ("name", VStr (container_name c));
    ("image", opt_str (container_image c));
    ("ready", VBool (match cs with Some st => cs_ready st | None => false end));
    ("restart_count", VInt (match cs with Some st => cs_restart_count st | None => 0 end));
    ("state", VStr (match cs with Some st => cs_state st | None => "unknown" end))
  ].

Definition pod_detail (pod : V1Pod) : M value :=
  let* metadata := getattr (pod_metadata pod) "name" in
  let* status := getattr (pod_status pod) "phase" in
  let* spec := getattr (pod_spec pod) "node_name" in
  ret (VDict [
    ("name", opt_str (meta_name metadata));
    ("namespace", opt_str (meta_namespace metadata));
    ("labels", opt_dict (meta_labels metadata));
    ("annotations", opt_dict (meta_annotations metadata));
    ("status", opt_str (podstatus_phase status));
    ("ip", opt_str (podstatus_pod_ip status));
    ("node", opt_str (podspec_node_name spec));
    ("containers", VList (map container_record
                            (zip_statuses (podspec_containers spec)
                                          (podstatus_container_statuses status))));
    ("conditions", VList (map condition_record
                            (default [] (podstatus_conditions status))));
    ("events", VStr "Use kubectl get events for pod events")
  ]).

Definition deployment_detail (dep : V1Deployment) : M value :=
  let* metadata := getattr (dep_metadata dep) "name" in
  let* spec := getattr (dep_spec dep) "replicas" in
  let* status := getattr (dep_status dep) "ready_replicas" in
  let* strategy_type := getattr (depspec_strategy spec) "type" in
  ret (VDict [
    ("name", opt_str (meta_name metadata));
    ("namespace", opt_str (meta_namespace metadata));
    ("labels", opt_dict (meta_labels metadata));
    ("annotations", opt_dict (meta_annotations metadata));
    ("replicas", opt_int (depspec_replicas spec));
    ("ready_replicas", VInt (or_zero (depstatus_ready_replicas status)));
    ("available_replicas", VInt (or_zero (depstatus_available_replicas status)));
    ("updated_replicas", VInt (or_zero (depstatus_updated_replicas status)));
    ("selector", opt_dict (depspec_selector_match_labels spec));
    ("strategy", opt_str strategy_type);
    ("conditions", VList (map condition_record
                            (default [] (depstatus_conditions status))))
  ]).

Definition port_record (p : V1ServicePort) : value :=
  VDict [("port", VInt (sport_port p)); ("protocol", opt_str (sport_protocol p));
         ("target_port", VStr (sport_target_port p))].

Definition service_detail (svc : V1Service) : M value :=
  let* metadata := getattr (svc_metadata svc) "name" in
  let* spec := getattr (svc_spec svc) "type" in
  ret (VDict [
    ("name", opt_str (meta_name metadata));
    ("namespace", opt_str (meta_namespace metadata));
    ("labels", opt_dict (meta_labels metadata));
    ("annotations", opt_dict (meta_annotations metadata));
    ("type", opt_str (svcspec_type spec));
    ("cluster_ip", opt_str (svcspec_cluster_ip spec));
    ("external_ips", match svcspec_external_i_ps spec with
                     | Some ips => VList (map VStr ips)
                     | None => VNone
                     end);
    ("ports", VList (map port_record (default [] (svcspec_ports spec))));
    ("selector", opt_dict (svcspec_selector spec))
  ]).

Definition address_record (a : V1NodeAddress) : value :=
  VDict [("type", VStr (addr_type a)); ("address", VStr (addr_address a))].

Definition node_detail (node : V1Node) : M value :=
  let* metadata := getattr (node_metadata node) "name" in
  let* status := getattr (node_status node) "capacity" in
  let* info := getattr (nodestatus_node_info status) "kubelet_version" in
  ret (VDict [
    ("name", opt_str (meta_name metadata));
    ("labels", opt_dict (meta_labels metadata));
    ("annotations", opt_dict (meta_annotations metadata));
    ("capacity", opt_dict (nodestatus_capacity status));
    ("allocatable", opt_dict (nodestatus_allocatable status));
    ("conditions", VList (map condition_record
                            (default [] (nodestatus_conditions status))));
    ("addresses", VList (map address_record
                           (default [] (nodestatus_addresses status))));
    ("node_info", VDict [
       ("kubelet_version", VStr (info_kubelet_version info));
       ("os_image", VStr (info_os_image info));
       ("container_runtime", VStr (info_container_runtime_version info))])
  ]).

(** The body of the [try] of [kubectl_describe] up to the serialisation;
    [None] when the token fell through to the final [else]. *)
Definition describe_result (env : Env) (resource_type : string)
    (namespace name_arg : value) : M (option value) :=
  if str_in resource_type ["pod"; "pods"] then
    let* pod := invoke (read_namespaced_pod_call name_arg namespace)
                       (read_namespaced_pod env name_arg namespace) in
    let* d := pod_detail pod in
    ret (Some d)
  else if str_in resource_type ["deployment"; "deployments"] then
    let* dep := invoke (read_namespaced_deployment_call name_arg namespace)
                       (read_namespaced_deployment env name_arg namespace) in
    let* d := deployment_detail dep in
    ret (Some d)
  else if str_in resource_type ["service"; "services"; "svc"] then
    let* svc := invoke (read_namespaced_service_call name_arg namespace)
                       (read_namespaced_service env name_arg namespace) in
    let* d := service_detail svc in
    ret (Some d)
  else if str_in resource_type ["node"; "nodes"] then
    let* node := invoke (read_node_call name_arg) (read_node env name_arg) in
    let* d := node_detail node in
    ret (Some d)
  else ret None.

(** ** The four operations *)

(** [arguments.get(key)] and [arguments.get(key, dflt)]. *)
Definition arguments_get (arguments : gmap string value) (key : string) : value :=
  default VNone (arguments !! key).

Definition arguments_get_default (arguments : gmap string value)
    (key : string) (dflt : value) : value :=
  default dflt (arguments !! key).

(** [docs[0]]. *)
Definition first_doc (docs : list value) : M value :=
  match docs with
  | doc :: _ => ret doc
  | [] => raise (Exn IndexError "list index out of range")
  end.

Definition kubectl_apply (env : Env) (arguments : gmap string value) : M string :=
  let yaml_content := arguments_get arguments "yaml_content" in
  if negb (truthy yaml_content) then ret "Error: yaml_content is required"
  else
    let namespace := arguments_get arguments "namespace" in
    try_except
      (let* docs := safe_load_all env yaml_content in
       let* _ := invoke (create_from_yaml_call docs namespace)
                        (create_from_yaml env docs namespace) in
       let* doc := first_doc docs in
       let* metadata := value_get doc "metadata" (VDict []) in
       let* resource_name := value_get metadata "name" (VStr "unknown") in
       let* doc' := first_doc docs in
       let* resource_kind := value_get doc' "kind" (VStr "unknown") in
       ret ("Successfully applied " ++ str resource_kind ++ "/" ++ str resource_name))
      (fun e => ret ("Error applying manifest: " ++ exn_str e)).

Definition kubectl_get (env : Env) (arguments : gmap string value) : M string :=
  let resource_type := arguments_get arguments "resource_type" in
  if negb (truthy resource_type) then ret "Error: resource_type is required"
  else
    let* resource_type := value_lower resource_type in
    let namespace := arguments_get_default arguments "namespace" (VStr "default") in
    let name := arguments_get arguments "name" in
    try_except
      (let* result := get_result env resource_type namespace name in
       match result with
       | None => ret ("Unsupported resource type: " ++ resource_type)
       | Some result => ret (json_dumps (VList result))
       end)
      (fun e => ret ("Error getting resource: " ++ exn_str e)).

Definition kubectl_describe (env : Env) (arguments : gmap string value) : M string :=
  let resource_type := arguments_get arguments "resource_type" in
  if negb (truthy resource_type) then ret "Error: resource_type is required"
  else
    let name_arg := arguments_get arguments "name" in
    if negb (truthy name_arg) then ret "Error: name is required"
    else
      let* resource_type := value_lower resource_type in
      let namespace := arguments_get_default arguments "namespace" (VStr "default") in
      try_except
        (let* description := describe_result env resource_type namespace name_arg in
         match description with
         | None => ret ("Unsupported resource type: " ++ resource_type)
         | Some description => ret (json_dumps description)
         end)
        (fun e => ret ("Error describing resource: " ++ exn_str e)).

(** The dispatch on the manifest's kind that ends [kubectl_delete]. *)
Definition delete_resource (env : Env) (resource_kind : string)
    (resource_name resource_namespace : value) : M string :=
  let deleted :=
    "Successfully deleted " ++ resource_kind ++ "/" ++ str resource_name
    ++ " from namespace " ++ str resource_namespace in
  if String.eqb resource_kind "pod" then
    let* _ := invoke (delete_namespaced_pod_call resource_name resource_namespace)
                     (delete_namespaced_pod env resource_name resource_namespace) in
    ret deleted
  else if String.eqb resource_kind "deployment" then
    let* _ := invoke (delete_namespaced_deployment_call resource_name resource_namespace)
                     (delete_namespaced_deployment env resource_name resource_namespace) in
    ret deleted
  else if String.eqb resource_kind "service" then
    let* _ := invoke (delete_namespaced_service_call resource_name resource_namespace)
                     (delete_namespaced_service env resource_name resource_namespace) in
    ret deleted
  else
    ret ("Generic deletion not fully implemented for " ++ resource_kind).

Definition kubectl_delete (env : Env) (arguments : gmap string value) : M string :=
  let yaml_content := arguments_get arguments "yaml_content" in
  if negb (truthy yaml_content) then ret "Error: yaml_content is required"
  else
    let namespace := arguments_get arguments "namespace" in
    try_except
      (let* manifest := safe_load env yaml_content in
       if negb (truthy manifest) then ret "Error: Invalid YAML content"
       else
         let* metadata := value_get manifest "metadata" (VDict []) in
         let* resource_name := value_get metadata "name" VNone in
         if negb (truthy resource_name) then ret "Error: Resource name not found in YAML"
         else
           let* kind := value_get manifest "kind" (VStr "") in
           let* resource_kind := value_lower kind in
           if negb (truthy (VStr resource_kind))
           then ret "Error: Resource kind not found in YAML"
           else
             let* resource_namespace :=
               if truthy namespace then ret namespace
               else
                 let* metadata := value_get manifest "metadata" (VDict []) in
                 value_get metadata "namespace" (VStr "default") in
             delete_resource env resource_kind resource_name resource_namespace)
      (fun e => ret ("Error deleting resource: " ++ exn_str e)).

(** [call_tool(name, arguments)]: the text of the single [TextContent] it
    returns, or the exception it raises, with the calls it made. *)
Definition call_tool (env : Env) (name : string) (arguments : gmap string value)
    : M string :=
  if String.eqb name "kubectl_apply" then kubectl_apply env arguments
  else if String.eqb name "kubectl_get" then kubectl_get env arguments
  else if String.eqb name "kubectl_describe" then kubectl_describe env arguments
  else if String.eqb name "kubectl_delete" then kubectl_delete env arguments
  else raise (Exn ValueError ("Unknown tool: " ++ name)).

(** ** A sample cluster

    One concrete environment, used to run the gateway: a decoder that knows
    a handful of manifests, the batch creator of the client library (it
    refuses an empty batch), and a cluster holding two pods and one node. *)
Module Sample.

Definition pod_web_yaml : string :=
"apiVersion: v1
kind: Pod
metadata:
  name: web
".

Definition two_pods_yaml : string :=
"apiVersion: v1
kind: Pod
metadata:
  name: web
---
apiVersion: v1
kind: Pod
metadata:
  name: db
".

Definition pods_plural_yaml : string :=
"apiVersion: v1
kind: Pods
metadata:
  name: web
".

Definition node_yaml : string :=
"apiVersion: v1
kind: Node
metadata:
  name: worker-1
".

Definition comment_yaml : string := "# nothing to apply".

Definition manifest (kind name : string) : value :=
  VDict [("apiVersion", VStr "v1"); ("kind", VStr kind);
         ("metadata", VDict [("name", VStr name)])].

Definition not_found : exn := Exn LibraryError "(404) Reason: Not Found".

Definition decode (text : string) : YamlStream :=
  if String.eqb text pod_web_yaml then YamlDocs [manifest "Pod" "web"]
  else if String.eqb text two_pods_yaml
       then YamlDocs [manifest "Pod" "web"; manifest "Pod" "db"]
  else if String.eqb text pods_plural_yaml then YamlDocs [manifest "Pods" "web"]
  else if String.eqb text node_yaml then YamlDocs [manifest "Node" "worker-1"]
  else if String.eqb text comment_yaml then YamlDocs []
  else YamlError (Exn LibraryError "while scanning the manifest").

Definition meta (name : string) (labels : str_dict) : V1ObjectMeta :=
  {| meta_name := Some name; meta_namespace := Some "default";
     meta_labels := Some labels; meta_annotations := None;
     meta_creation_timestamp := Some "2024-01-01 00:00:00+00:00" |}.

Definition container_status (ready : bool) (restarts : Z) : V1ContainerStatus :=
  {| cs_ready := ready; cs_restart_count := restarts; cs_state := "{'running': {}}" |}.

(** Two containers, one of them ready. *)
Definition pod_web : V1Pod :=
  {| pod_metadata := Some (meta "web" [("app", "web")]);
     pod_spec := Some {| podspec_node_name := Some "worker-1";
                         podspec_containers :=
                           [ {| container_name := "nginx"; container_image := Some "nginx:1.27" |};
                             {| container_name := "sidecar"; container_image := None |} ] |};
     pod_status := Some {| podstatus_phase := Some "Running";
                           podstatus_pod_ip := Some "10.0.0.7";
                           podstatus_container_statuses :=
                             Some [container_status true 0; container_status false 3];
                           podstatus_conditions := None |} |}.

(** A pod that has not been scheduled: no container statuses yet. *)
Definition pod_db : V1Pod :=
  {| pod_metadata := Some (meta "db" []);
     pod_spec := Some {| podspec_node_name := None;
                         podspec_containers :=
                           [ {| container_name := "postgres"; container_image := Some "postgres:16" |} ] |};
     pod_status := Some {| podstatus_phase := Some "Pending";
                           podstatus_pod_ip := None;
                           podstatus_container_statuses := None;
                           podstatus_conditions := None |} |}.

Definition node_worker : V1Node :=
  {| node_metadata := Some (meta "worker-1" [("node-role.kubernetes.io/master", "")]);
     node_status := Some {| nodestatus_conditions :=
                              Some [ {| cond_type := "Ready"; cond_status := "True";
                                        cond_reason := Some "KubeletReady" |} ];
                            nodestatus_addresses :=
                              Some [ {| addr_type := "InternalIP"; addr_address := "192.168.1.10" |} ];
                            nodestatus_node_info :=
                              Some {| info_kubelet_version := "v1.30.0";
                                      info_os_image := "Linux";
                                      info_container_runtime_version := "containerd://1.7" |};
                            nodestatus_capacity := None;
                            nodestatus_allocatable := None |} |}.

Definition is_str (v : value) (s : string) : bool :=
  match v with VStr s' => String.eqb s' s | _ => false end.

Definition env : Env :=
  {| yaml_stream := decode;
     yaml_single_error := fun _ =>
       Exn LibraryError "expected a single document in the stream";
     create_from_yaml := fun docs _ =>
       match docs with
       | [] => inl (Exn ValueError
                 "One of `yaml_file` or `yaml_objects` arguments must be provided")
       | _ :: _ => inr tt
       end;
     read_namespaced_pod := fun name namespace =>
       if is_str namespace "default" && is_str name "web" then inr pod_web
       else if is_str namespace "default" && is_str name "db" then inr pod_db
       else inl not_found;
     list_namespaced_pod := fun namespace =>
       if is_str namespace "default" then inr [pod_web; pod_db] else inr [];
     read_namespaced_deployment := fun _ _ => inl not_found;
     list_namespaced_deployment := fun _ => inr [];
     read_namespaced_service := fun _ _ => inl not_found;
     list_namespaced_service := fun _ => inr [];
     read_node := fun name =>
       if is_str name "worker-1" then inr node_worker else inl not_found;
     list_node := inr [node_worker];
     read_namespace := fun _ => inl not_found;
     list_namespace := inr [];
     delete_namespaced_pod := fun name namespace =>
       if is_str namespace "default" && (is_str name "web" || is_str name "db")
       then inr tt else inl not_found;
     delete_namespaced_deployment := fun _ _ => inl not_found;
     delete_namespaced_service := fun _ _ => inl not_found |}.

End Sample.

(** ** The design document's vocabulary *)

(** The closed set of resource kinds and, in the document's words, the
    alias set each one owns; matching ignores case. *)
Inductive ResourceKind : Type := Pod | Deployment | Service | Node | Namespace.

Definition aliases (k : ResourceKind) : list string :=
  match k with
  | Pod => ["pod"; "pods"]
  | Deployment => ["deployment"; "deployments"]
  | Service => ["service"; "services"; "svc"]
  | Node => ["node"; "nodes"]
  | Namespace => ["namespace"; "namespaces"; "ns"]
  end.

Definition resolve (token : string) : option ResourceKind :=
  List.find (fun k => str_in (lower token) (aliases k))
            [Pod; Deployment; Service; Node; Namespace].

(** The number of objects the control plane lists for the kind a
    (lower-cased) token names, in the namespace for a namespaced kind. *)
Definition listed {A} (answer : exn + list A) : option nat :=
  match answer with inr items => Some (length items) | inl _ => None end.

Definition objects_in_scope (env : Env) (token : string) (namespace : value)
    : option nat :=
  match resolve token with
  | Some Pod => listed (list_namespaced_pod env namespace)
  | Some Deployment => listed (list_namespaced_deployment env namespace)
  | Some Service => listed (list_namespaced_service env namespace)
  | Some Node => listed (list_node env)
  | Some Namespace => listed (list_namespace env)
  | None => None
  end.

(** ** Propositions used in the statements *)

(** A record: the JSON object a summary is serialised to. *)
Definition is_dict (v : value) : Prop := exists fields, v = VDict fields.

(** The invocation reached the serialisation of [result]: the token was
    accepted, the control-plane call answered and every record was built. *)
Definition get_succeeds (env : Env) (arguments : gmap string value)
    (result : list value) : Prop :=
  exists token tr,
    arguments_get arguments "resource_type" = VStr token /\ token <> "" /\
    get_result env (lower token)
      (arguments_get_default arguments "namespace" (VStr "default"))
      (arguments_get arguments "name") = (inr (Some result), tr).

(** A manifest [kubectl_delete] can use: a single document that is a
    mapping with a non-empty [metadata.name] and a non-empty string [kind]. *)
Record usable_manifest (env : Env) (arguments : gmap string value)
    (text : string) (metadata : list (string * value))
    (name : value) (kind : string) : Prop := {
  um_content : arguments_get arguments "yaml_content" = VStr text;
  um_text : text <> "";
  um_single : exists fields,
    yaml_stream env text = YamlDocs [VDict fields] /\
    assoc "metadata" fields = Some (VDict metadata) /\
    assoc "kind" fields = Some (VStr kind);
  um_name : assoc "name" metadata = Some name;
  um_named : truthy name = true;
  um_kind : kind <> ""
}.

(** [namespace or manifest.get("metadata", {}).get("namespace", "default")]. *)
Definition delete_namespace (arguments : gmap string value)
    (metadata : list (string * value)) : value :=
  if truthy (arguments_get arguments "namespace")
  then arguments_get arguments "namespace"
  else default (VStr "default") (assoc "namespace" metadata).

(** The document's reading: a manifest of several documents is deleted as
    if it held its first document alone. *)
Definition delete_uses_first_document (env : Env) : Prop :=
  forall text first_alone doc rest arguments,
    yaml_stream env text = YamlDocs (doc :: rest) ->
    yaml_stream env first_alone = YamlDocs [doc] ->
    call_tool env "kubectl_delete" (<["yaml_content" := VStr text]> arguments)
    = call_tool env "kubectl_delete" (<["yaml_content" := VStr first_alone]> arguments).

(** What an empty batch ends in: the batch creator's own refusal, or the
    failure of [docs[0]] when the creator accepts it. *)
Definition empty_batch_cause (env : Env) (namespace : value) : string :=
  match create_from_yaml env [] namespace with
  | inl e => exn_str e
  | inr _ => "list index out of range"
  end.

(** The alias lists of the [if]/[elif] chains, read through [resolve]:
    the chain stops at the first list holding the lower-cased token. *)
Definition chain_stops_at (token : string) (k : option ResourceKind) : Prop :=
  let hit (kind : ResourceKind) := str_in (lower token) (aliases kind) in
  match k with
  | Some Pod => hit Pod = true
  | Some Deployment => hit Pod = false /\ hit Deployment = true
  | Some Service => hit Pod = false /\ hit Deployment = false /\ hit Service = true
  | Some Node =>
      hit Pod = false /\ hit Deployment = false /\ hit Service = false
      /\ hit Node = true
  | Some Namespace =>
      hit Pod = false /\ hit Deployment = false /\ hit Service = false
      /\ hit Node = false /\ hit Namespace = true
  | None =>
      hit Pod = false /\ hit Deployment = false /\ hit Service = false
      /\ hit Node = false /\ hit Namespace = false
  end.

(** The document's reading: the token comes back as the caller wrote it. *)
Definition unsupported_verbatim (env : Env) (arguments : gmap string value)
    (token : string) : Prop :=
  arguments_get arguments "resource_type" = VStr token ->
  resolve token = None ->
  outcome (call_tool env "kubectl_get" arguments)
  = inr ("Unsupported resource type: " ++ token).

(** The document's reading for [kubectl_delete]: two manifests that differ
    only in kinds of one alias set make the same control-plane calls. *)
Definition delete_resolves_aliases (env : Env) : Prop :=
  forall text1 text2 metadata name kind1 kind2,
    usable_manifest env {[ "yaml_content" := VStr text1 ]} text1 metadata name kind1 ->
    usable_manifest env {[ "yaml_content" := VStr text2 ]} text2 metadata name kind2 ->
    resolve kind1 = resolve kind2 ->
    calls (call_tool env "kubectl_delete" {[ "yaml_content" := VStr text1 ]})
    = calls (call_tool env "kubectl_delete" {[ "yaml_content" := VStr text2 ]}).



(** ** [list_tools]: the tools the server advertises *)

(** [types.Tool(name=..., description=..., inputSchema=...)]. *)
Record Tool : Type := {
  tool_name : string;
  tool_description : string;
  tool_inputSchema : value
}.

Definition list_tools : list Tool := [
  {| tool_name := "kubectl_apply";
     tool_description := "Apply a Kubernetes manifest from YAML content (kubectl apply -f)";
     tool_inputSchema := VDict [
       ("type", VStr "object");
       ("properties", VDict [
          ("yaml_content", VDict [
             ("type", VStr "string");
             ("description", VStr "YAML manifest content to apply")]);
          ("namespace", VDict [
             ("type", VStr "string");
             ("description", VStr "Namespace to apply the resource in (optional)")])]);
       ("required", VList [VStr "yaml_content"])] |};
  {| tool_name := "kubectl_get";
     tool_description := "Get Kubernetes resources (kubectl get)";
     tool_inputSchema := VDict [
       ("type", VStr "object");
       ("properties", VDict [
          ("resource_type", VDict [
             ("type", VStr "string");
             ("description", VStr "Type of resource to get (e.g., pods, deployments, services, nodes, namespaces)")]);
          ("namespace", VDict [
             ("type", VStr "string");
             ("description", VStr "Namespace to get resources from (not applicable for cluster-scoped resources like nodes)")]);
          ("name", VDict [
             ("type", VStr "string");
             ("description", VStr "Specific resource name (optional)")])]);
       ("required", VList [VStr "resource_type"])] |};
  {| tool_name := "kubectl_describe";
     tool_description := "Describe a Kubernetes resource (kubectl describe)";
     tool_inputSchema := VDict [
       ("type", VStr "object");
       ("properties", VDict [
          ("resource_type", VDict [
             ("type", VStr "string");
             ("description", VStr "Type of resource to describe (e.g., pod, deployment, service, node)")]);
          ("name", VDict [
             ("type", VStr "string");
             ("description", VStr "Name of the resource to describe")]);
          ("namespace", VDict [
             ("type", VStr "string");
             ("description", VStr "Namespace of the resource (not applicable for cluster-scoped resources)")])]);
       ("required", VList [VStr "resource_type"; VStr "name"])] |};
  {| tool_name := "kubectl_delete";
     tool_description := "Delete a Kubernetes resource from YAML content (kubectl delete -f)";
     tool_inputSchema := VDict [
       ("type", VStr "object");
       ("properties", VDict [
          ("yaml_content", VDict [
             ("type", VStr "string");
             ("description", VStr "YAML manifest content to delete")]);
          ("namespace", VDict [
             ("type", VStr "string");
             ("description", VStr "Namespace to delete the resource from (optional)")])]);
       ("required", VList [VStr "yaml_content"])] |}
].

(** The strings of a list value. *)
Definition strings_of (v : value) : list string :=
  match v with
  | VList l => omap (fun x => match x with VStr s => Some s | _ => None end) l
  | _ => []
  end.

(** [tool.inputSchema["required"]], in the order the schema lists them. *)
Definition required (t : Tool) : list string :=
  match tool_inputSchema t with
  | VDict schema => strings_of (default VNone (assoc "required" schema))
  | _ => []
  end.

(** The keys of [tool.inputSchema["properties"]]. *)
Definition properties (t : Tool) : list string :=
  match tool_inputSchema t with
  | VDict schema =>
      match assoc "properties" schema with
      | Some (VDict props) => map fst props
      | _ => []
      end
  | _ => []
  end.

(** The first required argument, in schema order, that a bag lacks or
    holds with a falsy value. *)
Definition first_missing (t : Tool) (arguments : gmap string value) : option string :=
  List.find (fun key => negb (truthy (arguments_get arguments key))) (required t).

(** ** What a control-plane call does *)

Inductive Verb : Type := Creates | Reads | Lists | Deletes.

Definition verb (c : Call) : Verb :=
  match c with
  | create_from_yaml_call _ _ => Creates
  | read_namespaced_pod_call _ _ | read_namespaced_deployment_call _ _
  | read_namespaced_service_call _ _ | read_node_call _ | read_namespace_call _ => Reads
  | list_namespaced_pod_call _ | list_namespaced_deployment_call _
  | list_namespaced_service_call _ | list_node_call | list_namespace_call => Lists
  | delete_namespaced_pod_call _ _ | delete_namespaced_deployment_call _ _
  | delete_namespaced_service_call _ _ => Deletes
  end.

(** The verbs an operation is meant to use. *)
Definition verbs_of (operation : string) : list Verb :=
  if String.eqb operation "kubectl_apply" then [Creates]
  else if String.eqb operation "kubectl_get" then [Reads; Lists]
  else if String.eqb operation "kubectl_describe" then [Reads]
  else if String.eqb operation "kubectl_delete" then [Deletes]
  else [].

(** The ways an answer of each operation can begin: the validation texts
    in full, then the prefixes of failures and successes. *)
Definition openings (operation : string) : list string :=
  if String.eqb operation "kubectl_apply" then
    ["Error: yaml_content is required"; "Error applying manifest: ";
     "Successfully applied "]
  else if String.eqb operation "kubectl_get" then
    ["Error: resource_type is required"; "Error getting resource: ";
     "Unsupported resource type: "; "["]
  else if String.eqb operation "kubectl_describe" then
    ["Error: resource_type is required"; "Error: name is required";
     "Error describing resource: "; "Unsupported resource type: "; "{"]
  else if String.eqb operation "kubectl_delete" then
    ["Error: yaml_content is required"; "Error: Invalid YAML content";
     "Error: Resource name not found in YAML";
     "Error: Resource kind not found in YAML"; "Error deleting resource: ";
     "Generic deletion not fully implemented for "; "Successfully deleted "]
  else [].

(** A text begins with one of the given openings. *)
Definition begins_with (ps : list string) (text : string) : bool :=
  existsb (fun p => String.prefix p text) ps.

(** A call log that holds at most one call, of one of the given verbs. *)
Definition one_call_of (verbs : list Verb) (tr : list Call) : Prop :=
  tr = [] \/ exists c, tr = [c] /\ In (verb c) verbs.

(** A pod as the control plane returns it in practice: with its metadata,
    its status and its spec. *)
Definition pod_complete (pod : V1Pod) : bool :=
  match pod_metadata pod, pod_status pod, pod_spec pod with
  | Some _, Some _, Some _ => true
  | _, _, _ => false
  end.

(** ** Variations of the sample cluster *)

(** An environment with another decoder, pod listing and node listing. *)
Definition override (env : Env) (decode : string -> YamlStream)
    (pods : value -> exn + list V1Pod) (nodes : exn + list V1Node) : Env :=
  {| yaml_stream := decode;
     yaml_single_error := yaml_single_error env;
     create_from_yaml := create_from_yaml env;
     read_namespaced_pod := read_namespaced_pod env;
     list_namespaced_pod := pods;
     read_namespaced_deployment := read_namespaced_deployment env;
     list_namespaced_deployment := list_namespaced_deployment env;
     read_namespaced_service := read_namespaced_service env;
     list_namespaced_service := list_namespaced_service env;
     read_node := read_node env;
     list_node := nodes;
     read_namespace := read_namespace env;
     list_namespace := list_namespace env;
     delete_namespaced_pod := delete_namespaced_pod env;
     delete_namespaced_deployment := delete_namespaced_deployment env;
     delete_namespaced_service := delete_namespaced_service env |}.

(** The same cluster, whose decoder reads [text] as the documents [docs]. *)
Definition with_yaml (env : Env) (text : string) (docs : list value) : Env :=
  override env
    (fun t => if String.eqb t text then YamlDocs docs else yaml_stream env t)
    (list_namespaced_pod env) (list_node env).

(** The same cluster, listing the given pods in every namespace. *)
Definition with_pods (env : Env) (pods : list V1Pod) : Env :=
  override env (yaml_stream env) (fun _ => inr pods) (list_node env).

(** The same cluster, with the given nodes. *)
Definition with_nodes (env : Env) (nodes : list V1Node) : Env :=
  override env (yaml_stream env) (list_namespaced_pod env) (inr nodes).

(** The same cluster, where every node name reads as the given node. *)
Definition with_node (env : Env) (node : V1Node) : Env :=
  {| yaml_stream := yaml_stream env;
     yaml_single_error := yaml_single_error env;
     create_from_yaml := create_from_yaml env;
     read_namespaced_pod := read_namespaced_pod env;
     list_namespaced_pod := list_namespaced_pod env;
     read_namespaced_deployment := read_namespaced_deployment env;
     list_namespaced_deployment := list_namespaced_deployment env;
     read_namespaced_service := read_namespaced_service env;
     list_namespaced_service := list_namespaced_service env;
     read_node := fun _ => inr node;
     list_node := list_node env;
     read_namespace := read_namespace env;
     list_namespace := list_namespace env;
     delete_namespaced_pod := delete_namespaced_pod env;
     delete_namespaced_deployment := delete_namespaced_deployment env;
     delete_namespaced_service := delete_namespaced_service env |}.

(** The sample node with other labels and conditions. *)
Definition node_with (labels : str_dict) (conditions : list V1Condition) : V1Node :=
  {| node_metadata := Some (Sample.meta "worker-2" labels);
     node_status := Some {| nodestatus_conditions := Some conditions;
                            nodestatus_addresses := Some [];
                            nodestatus_node_info :=
                              Some {| info_kubelet_version := "v1.30.0";
                                      info_os_image := "Linux";
                                      info_container_runtime_version := "containerd://1.7" |};
                            nodestatus_capacity := None;
                            nodestatus_allocatable := None |} |}.

(** A pod the client returned without a status. *)
Definition pod_without_status : V1Pod :=
  {| pod_metadata := Some (Sample.meta "ghost" []);
     pod_spec := Some {| podspec_node_name := None; podspec_containers := [] |};
     pod_status := None |}.

(** The text that follows a control-plane deletion: the acknowledgement,
    or the failure behind its prefix. *)
Definition deleted_answer (kind : string) (name namespace : value)
    (answer : exn + unit) : string :=
  match answer with
  | inr _ => "Successfully deleted " ++ kind ++ "/" ++ str name
             ++ " from namespace " ++ str namespace
  | inl e => "Error deleting resource: " ++ exn_str e
  end.

(** A manifest text that decodes to the single document [doc]. *)
Definition single_document (env : Env) (arguments : gmap string value)
    (doc : value) : Prop :=
  exists text,
    arguments_get arguments "yaml_content" = VStr text /\ text <> ""
    /\ yaml_stream env text = YamlDocs [doc].

(** The marker of a role label, and the label of a role. *)
Definition role_marker : string := "node-role.kubernetes.io".

Definition role_label (role : string) : string := role_marker ++ "/" ++ role.

(** The last condition of type Ready, which is the one a dict built from
    the conditions keeps. *)
Definition last_ready (conditions : list V1Condition) : option V1Condition :=
  last (List.filter (fun c => String.eqb (cond_type c) "Ready") conditions).

(** A node as the control plane returns it in practice. *)
Record node_parts (node : V1Node) (metadata : V1ObjectMeta) (labels : str_dict)
    (conditions : list V1Condition) (addresses : list V1NodeAddress)
    (info : V1NodeSystemInfo) : Prop := {
  np_metadata : node_metadata node = Some metadata;
  np_labels : meta_labels metadata = Some labels;
  np_status : exists status,
    node_status node = Some status
    /\ nodestatus_conditions status = Some conditions
    /\ nodestatus_addresses status = Some addresses
    /\ nodestatus_node_info status = Some info
}.

(** The lookup of one object of a kind, and the exception the control
    plane answers it with, if any. *)
Definition read_call (k : ResourceKind) (name namespace : value) : Call :=
  match k with
  | Pod => read_namespaced_pod_call name namespace
  | Deployment => read_namespaced_deployment_call name namespace
  | Service => read_namespaced_service_call name namespace
  | Node => read_node_call name
  | Namespace => read_namespace_call name
  end.

Definition raised {A} (answer : exn + A) : option exn :=
  match answer with inl e => Some e | inr _ => None end.

Definition read_error (env : Env) (k : ResourceKind) (name namespace : value)
    : option exn :=
  match k with
  | Pod => raised (read_namespaced_pod env name namespace)
  | Deployment => raised (read_namespaced_deployment env name namespace)
  | Service => raised (read_namespaced_service env name namespace)
  | Node => raised (read_node env name)
  | Namespace => raised (read_namespace env name)
  end.



(** The listing of the objects of a kind. *)
Definition list_call (k : ResourceKind) (namespace : value) : Call :=
  match k with
  | Pod => list_namespaced_pod_call namespace
  | Deployment => list_namespaced_deployment_call namespace
  | Service => list_namespaced_service_call namespace
  | Node => list_node_call
  | Namespace => list_namespace_call
  end.

(** The kinds that live in a namespace. *)
Definition namespaced (k : ResourceKind) : bool :=
  match k with
  | Pod | Deployment | Service => true
  | Node | Namespace => false
  end.



(** ** Basic facts about computations *)

Section Computations.
Context {A B : Type}.

Lemma bind_ret (a : A) (k : A -> M B) : bind (ret a) k = k a.
Proof. unfold bind, ret. destruct (k a). reflexivity. Qed.

Lemma bind_invoke (c : Call) (a : A) (k : A -> M B) :
  bind (invoke c (inr a)) k = (outcome (k a), c :: calls (k a)).
Proof. unfold bind, invoke, outcome, calls. destruct (k a). reflexivity. Qed.

Lemma bind_inr (m : M A) (k : A -> M B) (b : B) (tr : list Call) :
  bind m k = (inr b, tr) ->
  exists a tr1 tr2, m = (inr a, tr1) /\ k a = (inr b, tr2) /\ tr = (tr1 ++ tr2)%list.
Proof.
  unfold bind. destruct m as [[e | a] tr1]; [discriminate |].
  destruct (k a) as [r tr2] eqn:Hk. intros [= -> <-].
  exists a, tr1, tr2. auto.
Qed.

Lemma invoke_inr (c : Call) (answer : exn + A) (a : A) (tr : list Call) :
  invoke c answer = (inr a, tr) -> answer = inr a /\ tr = [c].
Proof. unfold invoke. intros [= -> <-]. auto. Qed.

(** A handler that returns makes the whole [try] return. *)
Lemma try_except_returns (m : M A) (h : exn -> A) :
  exists a, outcome (try_except m (fun e => ret (h e))) = inr a.
Proof. destruct m as [[e | a] tr]; simpl; eauto. Qed.

End Computations.

(** A loop that appends one record per item yields as many records as
    there are items, when it completes. *)
Lemma mapM_length {A B} (f : A -> M B) (l : list A) (ys : list B) (tr : list Call) :
  mapM f l = (inr ys, tr) -> length ys = length l.
Proof.
  revert ys tr. induction l as [| x l IH]; intros ys tr; simpl.
  - intros [= <- _]. reflexivity.
  - intros H. apply bind_inr in H as (y & tr1 & tr2 & _ & H & _).
    apply bind_inr in H as (ys' & tr3 & tr4 & Hl & H & _).
    injection H as <- _. simpl. f_equal. eauto.
Qed.

Lemma mapM_Forall {A B} (P : B -> Prop) (f : A -> M B) :
  (forall x y tr, f x = (inr y, tr) -> P y) ->
  forall l ys tr, mapM f l = (inr ys, tr) -> Forall P ys.
Proof.
  intros Hf. induction l as [| x l IH]; intros ys tr; simpl.
  - intros [= <- _]. constructor.
  - intros H. apply bind_inr in H as (y & tr1 & tr2 & Hy & H & _).
    apply bind_inr in H as (ys' & tr3 & tr4 & Hl & H & _).
    injection H as <- _. constructor; eauto.
Qed.

(** ** Facts about the serialiser *)

Lemma json_array_head (l : list value) :
  String.get 0 (json_dumps (VList l)) = Some "["%char.
Proof. destruct l; reflexivity. Qed.

Lemma json_object_head (d : list (string * value)) :
  String.get 0 (json_dumps (VDict d)) = Some "{"%char.
Proof. destruct d as [| [k x] d]; reflexivity. Qed.

Lemma json_array_not_object (l : list value) (d : list (string * value)) :
  json_dumps (VList l) <> json_dumps (VDict d).
Proof.
  intros H. pose proof (json_array_head l) as Hl.
  rewrite H, json_object_head in Hl. discriminate.
Qed.

(** ** Facts about the argument bag *)

Lemma truthy_VStr (s : string) : s <> "" -> truthy (VStr s) = true.
Proof.
  intros H. simpl. destruct (String.eqb_spec s ""); [contradiction | reflexivity].
Qed.

(** ** Summaries are records *)

Ltac run_bind H :=
  repeat match type of H with
         | bind _ _ = (inr _, _) =>
             let a := fresh "a" in
             let tr1 := fresh "tr" in
             let tr2 := fresh "tr" in
             let H1 := fresh "Hrun" in
             apply bind_inr in H as (a & tr1 & tr2 & H1 & H & ->)
         | ret _ = (inr _, _) => unfold ret in H; injection H as <- <-
         end.

Lemma pod_summary_dict namespace pod v tr :
  pod_summary namespace pod = (inr v, tr) -> is_dict v.
Proof. unfold pod_summary. intros H. run_bind H. eexists; reflexivity. Qed.

Lemma deployment_summary_dict namespace dep v tr :
  deployment_summary namespace dep = (inr v, tr) -> is_dict v.
Proof. unfold deployment_summary. intros H. run_bind H. eexists; reflexivity. Qed.

Lemma service_summary_dict namespace svc v tr :
  service_summary namespace svc = (inr v, tr) -> is_dict v.
Proof. unfold service_summary. intros H. run_bind H. eexists; reflexivity. Qed.

Lemma node_summary_dict node v tr :
  node_summary node = (inr v, tr) -> is_dict v.
Proof. unfold node_summary. intros H. run_bind H. eexists; reflexivity. Qed.

Lemma namespace_summary_dict ns v tr :
  namespace_summary ns = (inr v, tr) -> is_dict v.
Proof. unfold namespace_summary. intros H. run_bind H. eexists; reflexivity. Qed.

Create HintDb summaries.
#[local] Hint Resolve pod_summary_dict deployment_summary_dict
  service_summary_dict node_summary_dict namespace_summary_dict : summaries.

(** What a completed [kubectl_get] body holds: one record when a name was
    given, one record per listed object otherwise. *)
Lemma get_result_shape env token namespace name result tr :
  get_result env (lower token) namespace name = (inr (Some result), tr) ->
  Forall is_dict result
  /\ (truthy name = true -> length result = 1%nat)
  /\ (truthy name = false ->
      objects_in_scope env token namespace = Some (length result)).
Proof.
  unfold get_result, objects_in_scope, resolve. cbn [List.find aliases].
  repeat match goal with
         | |- context [str_in (lower token) ?l] =>
             destruct (str_in (lower token) l) eqn:?
         end;
  try discriminate;
  destruct (truthy name) eqn:Hname; intros H; run_bind H;
  match goal with
  | Hi : invoke _ _ = _ |- _ => apply invoke_inr in Hi as [Hans _]
  end.
  all: split; [| split; intros Hn; try discriminate].
  all: try reflexivity.
  all: try (rewrite Hans; simpl; f_equal; symmetry; eapply mapM_length; eassumption).
  all: try (repeat constructor; eauto with summaries; fail).
  all: eapply mapM_Forall; [| eassumption]; eauto with summaries.
Qed.

(** ** C1: the payload of [kubectl_get] *)

(** C1, as the code has it. A [kubectl_get] that succeeds returns the JSON
    text of an array of summary records in every case: with a (non-empty)
    name the array holds exactly one record, without a name it holds one
    record per object the control plane lists for the kind. *)
Theorem kubectl_get_returns_array env arguments result :
  get_succeeds env arguments result ->
  outcome (call_tool env "kubectl_get" arguments) = inr (json_dumps (VList result))
  /\ String.get 0 (json_dumps (VList result)) = Some "["%char
  /\ Forall is_dict result
  /\ (truthy (arguments_get arguments "name") = true -> length result = 1%nat)
  /\ (truthy (arguments_get arguments "name") = false ->
      exists token,
        arguments_get arguments "resource_type" = VStr token /\
        objects_in_scope env token
          (arguments_get_default arguments "namespace" (VStr "default"))
        = Some (length result)).
Proof.
  intros (token & tr & Htok & Hne & Hget).
  pose proof (get_result_shape _ _ _ _ _ _ Hget) as (Hdict & Hone & Hall).
  split; [| split; [apply json_array_head | split; [exact Hdict | split]]].
  - unfold call_tool, kubectl_get. simpl String.eqb. cbv iota.
    rewrite Htok, (truthy_VStr _ Hne). simpl negb. cbv iota.
    unfold value_lower, bind at 1, ret at 1. rewrite Hget. reflexivity.
  - exact Hone.
  - intros Hn. exists token. auto.
Qed.

(** A run of the statement above: listing the pods of the sample cluster. *)
Lemma kubectl_get_returns_array_witness :
  outcome (call_tool Sample.env "kubectl_get" {[ "resource_type" := VStr "pods" ]})
  = inr (json_dumps (VList
      [ VDict [("name", VStr "web"); ("namespace", VStr "default");
               ("status", VStr "Running"); ("ready", VStr "1/2");
               ("restarts", VInt 3); ("node", VStr "worker-1")];
        VDict [("name", VStr "db"); ("namespace", VStr "default");
               ("status", VStr "Pending"); ("ready", VStr "0/0");
               ("restarts", VInt 0); ("node", VNone)] ])).
Proof.
  refine (proj1 (kubectl_get_returns_array Sample.env
                   {[ "resource_type" := VStr "pods" ]} _ _)).
  exists "pods", [list_namespaced_pod_call (VStr "default")].
  split; [reflexivity | split; [discriminate | vm_compute; reflexivity]].
Defined.

(** C1, as the document states it, fails: asked for the pod [web] by name,
    the gateway answers with an array, and no object text equals it. *)
Lemma kubectl_get_by_name_not_an_object :
  ~ exists summary,
      outcome (call_tool Sample.env "kubectl_get"
                 {[ "resource_type" := VStr "pods"; "name" := VStr "web" ]})
      = inr (json_dumps (VDict summary)).
Proof.
  intros [summary H].
  assert (Hrun :
    outcome (call_tool Sample.env "kubectl_get"
               {[ "resource_type" := VStr "pods"; "name" := VStr "web" ]})
    = inr (json_dumps (VList
        [ VDict [("name", VStr "web"); ("namespace", VStr "default");
                 ("status", VStr "Running"); ("ready", VStr "1/2");
                 ("restarts", VInt 3); ("node", VStr "worker-1")] ])))
    by (vm_compute; reflexivity).
  rewrite Hrun in H. injection H as H.
  exact (json_array_not_object _ _ H).
Qed.

(** ** Deleting from a manifest *)

Lemma lower_nonempty (s : string) : s <> "" -> lower s <> "".
Proof. destruct s; [contradiction | discriminate]. Qed.

(** With a usable manifest, [kubectl_delete] comes down to the dispatch on
    the lower-cased kind, with the name and namespace of that document. *)
Lemma kubectl_delete_usable env arguments text metadata name kind :
  usable_manifest env arguments text metadata name kind ->
  call_tool env "kubectl_delete" arguments =
  try_except
    (delete_resource env (lower kind) name (delete_namespace arguments metadata))
    (fun e => ret ("Error deleting resource: " ++ exn_str e)).
Proof.
  intros [Hc Ht (fields & Hy & Hm & Hk) Hn Hnamed Hkind].
  unfold call_tool, kubectl_delete. simpl String.eqb. cbv iota.
  rewrite Hc, (truthy_VStr _ Ht). simpl negb. cbv iota.
  unfold safe_load. rewrite Hy, bind_ret.
  assert (Hf : truthy (VDict fields) = true) by (destruct fields; [discriminate | reflexivity]).
  rewrite Hf. simpl negb. cbv iota.
  unfold value_get at 1. rewrite Hm. simpl default. rewrite bind_ret.
  unfold value_get at 1. rewrite Hn. simpl default. rewrite bind_ret.
  rewrite Hnamed. simpl negb. cbv iota.
  unfold value_get at 1. rewrite Hk. simpl default. rewrite bind_ret.
  unfold value_lower. rewrite bind_ret.
  pose proof (truthy_VStr _ (lower_nonempty _ Hkind)) as Hl. simpl in Hl.
  rewrite Hl. simpl negb. cbv iota.
  unfold delete_namespace.
  destruct (truthy (arguments_get arguments "namespace")).
  - rewrite bind_ret. reflexivity.
  - unfold value_get at 1. rewrite Hm. simpl default. rewrite bind_ret.
    unfold value_get. rewrite bind_ret. reflexivity.
Qed.

(** Outside the three names it compares with, the dispatch calls nothing. *)
Lemma delete_resource_generic env resource_kind name namespace :
  str_in resource_kind ["pod"; "deployment"; "service"] = false ->
  delete_resource env resource_kind name namespace
  = ret ("Generic deletion not fully implemented for " ++ resource_kind).
Proof.
  unfold delete_resource, str_in. cbn [existsb]. intros H.
  destruct (String.eqb resource_kind "pod"); [discriminate |].
  destruct (String.eqb resource_kind "deployment"); [discriminate |].
  destruct (String.eqb resource_kind "service"); [discriminate |].
  reflexivity.
Qed.



(** ** C9: kinds [kubectl_delete] does not delete *)






(** ** C2: [kubectl_delete] and manifests of several documents *)

(** C2, as the document states it, fails: the two-pod manifest is refused,
    although its first document alone deletes the pod [web]. *)
Lemma two_documents_not_deleted_as_first :
  ~ delete_uses_first_document Sample.env.
Proof.
  intros H.
  specialize (H Sample.two_pods_yaml Sample.pod_web_yaml
                (Sample.manifest "Pod" "web") [Sample.manifest "Pod" "db"]
                ∅ eq_refl eq_refl).
  vm_compute in H. discriminate H.
Qed.

(** C2, as the code has it. A manifest of two or more documents is refused
    by the decoder: the answer is the decoder's message behind the prefix
    of a failed deletion, and no control-plane call is made. A usable
    manifest of one document decides the call: its kind picks the
    operation, its name and namespace are the arguments. *)
Theorem kubectl_delete_single_document_only env arguments text :
  arguments_get arguments "yaml_content" = VStr text ->
  text <> "" ->
  (forall doc1 doc2 rest,
     yaml_stream env text = YamlDocs (doc1 :: doc2 :: rest) ->
     call_tool env "kubectl_delete" arguments
     = (inr ("Error deleting resource: " ++ exn_str (yaml_single_error env text)), []))
  /\ (forall metadata name kind,
        usable_manifest env arguments text metadata name kind ->
        let namespace := delete_namespace arguments metadata in
        (lower kind = "pod" ->
         calls (call_tool env "kubectl_delete" arguments)
         = [delete_namespaced_pod_call name namespace])
        /\ (lower kind = "deployment" ->
            calls (call_tool env "kubectl_delete" arguments)
            = [delete_namespaced_deployment_call name namespace])
        /\ (lower kind = "service" ->
            calls (call_tool env "kubectl_delete" arguments)
            = [delete_namespaced_service_call name namespace])).
Proof.
  intros Hc Ht. split.
  - intros doc1 doc2 rest Hy.
    unfold call_tool, kubectl_delete. simpl String.eqb. cbv iota.
    rewrite Hc, (truthy_VStr _ Ht). simpl negb. cbv iota.
    unfold safe_load. rewrite Hy. reflexivity.
  - intros metadata name kind Hm namespace.
    rewrite (kubectl_delete_usable _ _ _ _ _ _ Hm). fold namespace.
    unfold delete_resource.
    repeat split; intros ->; simpl String.eqb; cbv iota.
    + destruct (delete_namespaced_pod env name namespace); reflexivity.
    + destruct (delete_namespaced_deployment env name namespace); reflexivity.
    + destruct (delete_namespaced_service env name namespace); reflexivity.
Qed.

(** The two-pod manifest against the sample cluster. *)
Lemma kubectl_delete_single_document_only_witness :
  call_tool Sample.env "kubectl_delete" {[ "yaml_content" := VStr Sample.two_pods_yaml ]}
  = (inr "Error deleting resource: expected a single document in the stream", []).
Proof.
  refine (proj1 (kubectl_delete_single_document_only Sample.env
                   {[ "yaml_content" := VStr Sample.two_pods_yaml ]}
                   Sample.two_pods_yaml eq_refl _) _ _ _ eq_refl).
  discriminate.
Defined.

(** ** C3: [kubectl_apply] and the empty manifest *)

(** C3. The document has an empty document sequence answered by an error
    of its own before anything is submitted. [kubectl_apply] has no such
    check, though [kubectl_delete] has one: when the manifest decodes to no
    document, the empty batch is handed to the batch creator, and the
    answer is the ordinary text of a failed apply, with the creator's
    refusal or the failure of [docs[0]] as its cause. *)
Theorem kubectl_apply_empty_manifest env arguments text :
  arguments_get arguments "yaml_content" = VStr text ->
  text <> "" ->
  yaml_stream env text = YamlDocs [] ->
  call_tool env "kubectl_apply" arguments
  = (inr ("Error applying manifest: "
          ++ empty_batch_cause env (arguments_get arguments "namespace")),
     [create_from_yaml_call [] (arguments_get arguments "namespace")]).
Proof.
  intros Hc Ht Hy.
  unfold call_tool, kubectl_apply, empty_batch_cause. simpl String.eqb. cbv iota.
  rewrite Hc, (truthy_VStr _ Ht). simpl negb. cbv iota.
  unfold safe_load_all. rewrite Hy, bind_ret.
  destruct (create_from_yaml env [] (arguments_get arguments "namespace"));
    reflexivity.
Qed.

(** The all-comment manifest against the sample cluster. *)
Lemma kubectl_apply_empty_manifest_witness :
  call_tool Sample.env "kubectl_apply" {[ "yaml_content" := VStr Sample.comment_yaml ]}
  = (inr "Error applying manifest: One of `yaml_file` or `yaml_objects` arguments must be provided",
     [create_from_yaml_call [] VNone]).
Proof.
  refine (kubectl_apply_empty_manifest Sample.env
            {[ "yaml_content" := VStr Sample.comment_yaml ]}
            Sample.comment_yaml eq_refl _ eq_refl).
  discriminate.
Defined.

(** ** Kind tokens *)

Lemma resolve_chain token : chain_stops_at token (resolve token).
Proof.
  unfold resolve, chain_stops_at. cbn [List.find].
  destruct (str_in (lower token) (aliases Pod)); [reflexivity |].
  destruct (str_in (lower token) (aliases Deployment)); [auto |].
  destruct (str_in (lower token) (aliases Service)); [auto |].
  destruct (str_in (lower token) (aliases Node)); [auto 6 |].
  destruct (str_in (lower token) (aliases Namespace)); auto 6.
Qed.

Lemma resolve_nonempty token k : resolve token = Some k -> token <> "".
Proof. intros H ->. discriminate H. Qed.

(** Rewrites the tests of a chain with what [resolve] says of the token. *)
Ltac chain token :=
  let H := fresh "Hchain" in
  pose proof (resolve_chain token) as H;
  match goal with
  | Hr : resolve token = _ |- _ => rewrite Hr in H
  end;
  unfold chain_stops_at in H; cbn [aliases] in H;
  repeat match type of H with
         | _ /\ _ => let H1 := fresh "Hhit" in destruct H as [H1 H]; rewrite ?H1
         end;
  rewrite ?H.

Lemma get_result_unsupported env token namespace name :
  resolve token = None ->
  get_result env (lower token) namespace name = ret None.
Proof. intros Hr. unfold get_result. chain token. reflexivity. Qed.

Lemma describe_result_unsupported env token namespace name :
  resolve token = None \/ resolve token = Some Namespace ->
  describe_result env (lower token) namespace name = ret None.
Proof. intros [Hr | Hr]; unfold describe_result; chain token; reflexivity. Qed.

(** A token that resolves never falls through the chain of [kubectl_get]. *)
Lemma get_result_supported env token k namespace name tr :
  resolve token = Some k ->
  get_result env (lower token) namespace name <> (inr None, tr).
Proof.
  intros Hr. unfold get_result.
  destruct k; chain token; destruct (truthy name); intros H; run_bind H;
    discriminate.
Qed.

(** ** C4: the answer to an unsupported token *)

(** C4, as the document states it, fails: the token [Foo] comes back in
    lower case. *)
Lemma unsupported_token_is_lowered :
  ~ unsupported_verbatim Sample.env {[ "resource_type" := VStr "Foo" ]} "Foo".
Proof.
  intros H. specialize (H eq_refl eq_refl). vm_compute in H. discriminate H.
Qed.

(** C4, as the code has it. A token that matches no alias is answered with
    the fixed prefix followed by the token in lower case, and no
    control-plane call is made. For [kubectl_describe] this needs a name,
    and the aliases of Namespace are unsupported too. *)
Theorem unsupported_resource_type env arguments token :
  arguments_get arguments "resource_type" = VStr token ->
  token <> "" ->
  (resolve token = None ->
   call_tool env "kubectl_get" arguments
   = (inr ("Unsupported resource type: " ++ lower token), []))
  /\ (resolve token = None \/ resolve token = Some Namespace ->
      truthy (arguments_get arguments "name") = true ->
      call_tool env "kubectl_describe" arguments
      = (inr ("Unsupported resource type: " ++ lower token), [])).
Proof.
  intros Htok Hne. split.
  - intros Hr. unfold call_tool, kubectl_get. simpl String.eqb. cbv iota.
    rewrite Htok, (truthy_VStr _ Hne). simpl negb. cbv iota.
    unfold value_lower. rewrite bind_ret, get_result_unsupported by exact Hr.
    reflexivity.
  - intros Hr Hname. unfold call_tool, kubectl_describe. simpl String.eqb. cbv iota.
    rewrite Htok, (truthy_VStr _ Hne), Hname. simpl negb. cbv iota.
    unfold value_lower. rewrite bind_ret, describe_result_unsupported by exact Hr.
    reflexivity.
Qed.

(** The token [Foo] against the sample cluster. *)
Lemma unsupported_resource_type_witness :
  call_tool Sample.env "kubectl_get" {[ "resource_type" := VStr "Foo" ]}
  = (inr "Unsupported resource type: foo", [])
  /\ call_tool Sample.env "kubectl_describe"
       {[ "resource_type" := VStr "NS"; "name" := VStr "default" ]}
     = (inr "Unsupported resource type: ns", []).
Proof.
  split.
  - refine (proj1 (unsupported_resource_type Sample.env
                     {[ "resource_type" := VStr "Foo" ]} "Foo" eq_refl _) eq_refl).
    discriminate.
  - refine (proj2 (unsupported_resource_type Sample.env
                     {[ "resource_type" := VStr "NS"; "name" := VStr "default" ]}
                     "NS" eq_refl _) (or_intror eq_refl) eq_refl).
    discriminate.
Defined.

(** ** C6: which tokens select which handler *)

Lemma get_result_alias env token1 token2 k namespace name :
  resolve token1 = Some k -> resolve token2 = Some k ->
  get_result env (lower token1) namespace name
  = get_result env (lower token2) namespace name.
Proof.
  intros H1 H2. unfold get_result.
  destruct k; chain token1; chain token2; reflexivity.
Qed.

Lemma describe_result_alias env token1 token2 k namespace name :
  resolve token1 = Some k -> resolve token2 = Some k -> k <> Namespace ->
  describe_result env (lower token1) namespace name
  = describe_result env (lower token2) namespace name.
Proof.
  intros H1 H2 Hk. unfold describe_result.
  destruct k; try contradiction; chain token1; chain token2; reflexivity.
Qed.

Lemma describe_result_supported env token k namespace name tr :
  resolve token = Some k -> k <> Namespace ->
  describe_result env (lower token) namespace name <> (inr None, tr).
Proof.
  intros Hr Hk. unfold describe_result.
  destruct k; try contradiction; chain token; intros H; run_bind H; discriminate.
Qed.

(** The [else] of a chain is dead code for a computation that never falls
    through: what it would answer does not matter. *)
Lemma fall_through_irrelevant {A} (m : M (option A)) (none1 none2 : M string)
    (some : A -> M string) (h : exn -> M string) :
  (forall tr, m <> (inr None, tr)) ->
  try_except (let* r := m in match r with None => none1 | Some x => some x end) h
  = try_except (let* r := m in match r with None => none2 | Some x => some x end) h.
Proof.
  intros Hm. destruct m as [[e | [x |]] tr]; try reflexivity.
  destruct (Hm tr). reflexivity.
Qed.

Lemma arguments_get_insert arguments key v :
  arguments_get (<[key := v]> arguments) key = v.
Proof. unfold arguments_get. rewrite lookup_insert_eq. reflexivity. Qed.

Lemma arguments_get_insert_ne arguments key key' v :
  key <> key' ->
  arguments_get (<[key := v]> arguments) key' = arguments_get arguments key'.
Proof. intros H. unfold arguments_get. rewrite lookup_insert_ne by exact H. reflexivity. Qed.

Lemma arguments_get_default_insert_ne arguments key key' v dflt :
  key <> key' ->
  arguments_get_default (<[key := v]> arguments) key' dflt
  = arguments_get_default arguments key' dflt.
Proof.
  intros H. unfold arguments_get_default. rewrite lookup_insert_ne by exact H.
  reflexivity.
Qed.

Lemma sample_pod_manifest (text kind : string) :
  Sample.decode text = YamlDocs [Sample.manifest kind "web"] ->
  text <> "" -> kind <> "" ->
  usable_manifest Sample.env {[ "yaml_content" := VStr text ]}
    text [("name", VStr "web")] (VStr "web") kind.
Proof.
  intros Hy Ht Hk. split; try reflexivity; try assumption.
  eexists. repeat split; [exact Hy | reflexivity | reflexivity].
Qed.

(** C6, as the document states it, fails for [kubectl_delete]: the kinds
    [Pod] and [Pods] resolve alike, yet only the first deletes the pod. *)
Lemma delete_ignores_plural_alias : ~ delete_resolves_aliases Sample.env.
Proof.
  intros H.
  specialize (H Sample.pod_web_yaml Sample.pods_plural_yaml
                [("name", VStr "web")] (VStr "web") "Pod" "Pods").
  assert (Hcalls : [delete_namespaced_pod_call (VStr "web") (VStr "default")]
                   = @nil Call).
  { apply H; [apply sample_pod_manifest | apply sample_pod_manifest | reflexivity];
      solve [reflexivity | discriminate]. }
  discriminate Hcalls.
Qed.

(** C6, as the code has it. [kubectl_get] resolves a token without regard
    to case over the five alias sets; [kubectl_describe] does so over the
    alias sets of Pod, Deployment, Service and Node. [kubectl_delete]
    lower-cases the manifest's kind and compares it with the three names
    pod, deployment and service only: kinds equal up to case are deleted
    alike, and any other alias is answered as not implemented. *)
Theorem kind_resolution env arguments :
  (forall token1 token2 k,
     resolve token1 = Some k -> resolve token2 = Some k ->
     call_tool env "kubectl_get" (<["resource_type" := VStr token1]> arguments)
     = call_tool env "kubectl_get" (<["resource_type" := VStr token2]> arguments)
     /\ (k <> Namespace ->
         call_tool env "kubectl_describe" (<["resource_type" := VStr token1]> arguments)
         = call_tool env "kubectl_describe" (<["resource_type" := VStr token2]> arguments)))
  /\ (forall text1 text2 metadata name kind1 kind2,
        usable_manifest env (<["yaml_content" := VStr text1]> arguments)
          text1 metadata name kind1 ->
        usable_manifest env (<["yaml_content" := VStr text2]> arguments)
          text2 metadata name kind2 ->
        (lower kind1 = lower kind2 ->
         call_tool env "kubectl_delete" (<["yaml_content" := VStr text1]> arguments)
         = call_tool env "kubectl_delete" (<["yaml_content" := VStr text2]> arguments))
        /\ (str_in (lower kind1) ["pods"; "deployments"; "services"; "svc"] = true ->
            call_tool env "kubectl_delete" (<["yaml_content" := VStr text1]> arguments)
            = (inr ("Generic deletion not fully implemented for " ++ lower kind1), []))).
Proof.
  split.
  - intros token1 token2 k H1 H2.
    pose proof (resolve_nonempty _ _ H1) as Hne1.
    pose proof (resolve_nonempty _ _ H2) as Hne2.
    split; [| intros Hk].
    + unfold call_tool, kubectl_get. simpl String.eqb. cbv iota.
      rewrite !arguments_get_insert, !arguments_get_insert_ne,
        !arguments_get_default_insert_ne by discriminate.
      rewrite (truthy_VStr _ Hne1), (truthy_VStr _ Hne2). simpl negb. cbv iota.
      unfold value_lower. rewrite !bind_ret.
      rewrite (get_result_alias env token1 token2 k) by assumption.
      apply fall_through_irrelevant. intros tr.
      apply (get_result_supported env token2 k). exact H2.
    + unfold call_tool, kubectl_describe. simpl String.eqb. cbv iota.
      rewrite !arguments_get_insert, !arguments_get_insert_ne,
        !arguments_get_default_insert_ne by discriminate.
      rewrite (truthy_VStr _ Hne1), (truthy_VStr _ Hne2). simpl negb. cbv iota.
      destruct (truthy (arguments_get arguments "name")); [| reflexivity].
      simpl negb. cbv iota.
      unfold value_lower. rewrite !bind_ret.
      rewrite (describe_result_alias env token1 token2 k) by assumption.
      apply fall_through_irrelevant. intros tr.
      apply (describe_result_supported env token2 k); assumption.
  - intros text1 text2 metadata name kind1 kind2 Hm1 Hm2.
    rewrite (kubectl_delete_usable _ _ _ _ _ _ Hm1).
    rewrite (kubectl_delete_usable _ _ _ _ _ _ Hm2).
    unfold delete_namespace.
    rewrite !arguments_get_insert_ne by discriminate.
    split.
    + intros ->. reflexivity.
    + intros Hk. rewrite delete_resource_generic; [reflexivity |].
      unfold str_in in *. cbn [existsb] in *.
      destruct (String.eqb_spec (lower kind1) "pod") as [E |]; [rewrite E in Hk; discriminate |].
      destruct (String.eqb_spec (lower kind1) "deployment") as [E |]; [rewrite E in Hk; discriminate |].
      destruct (String.eqb_spec (lower kind1) "service") as [E |]; [rewrite E in Hk; discriminate |].
      reflexivity.
Qed.

(** The tokens [Pod], [pods] and [POD] against the sample cluster, and the
    kind [Pods] in a manifest to delete. *)
Lemma kind_resolution_witness :
  call_tool Sample.env "kubectl_get" {[ "resource_type" := VStr "Pod" ]}
  = call_tool Sample.env "kubectl_get" {[ "resource_type" := VStr "pods" ]}
  /\ call_tool Sample.env "kubectl_get" {[ "resource_type" := VStr "pods" ]}
     = call_tool Sample.env "kubectl_get" {[ "resource_type" := VStr "POD" ]}
  /\ call_tool Sample.env "kubectl_delete" {[ "yaml_content" := VStr Sample.pods_plural_yaml ]}
     = (inr "Generic deletion not fully implemented for pods", []).
Proof.
  pose proof (kind_resolution Sample.env ∅) as [Hget Hdel].
  split; [| split].
  - exact (proj1 (Hget "Pod" "pods" Pod eq_refl eq_refl)).
  - exact (proj1 (Hget "pods" "POD" Pod eq_refl eq_refl)).
  - refine (proj2 (Hdel Sample.pods_plural_yaml Sample.pods_plural_yaml
                     [("name", VStr "web")] (VStr "web") "Pods" "Pods" _ _) eq_refl);
      (split; try reflexivity; try discriminate;
       eexists; repeat split; reflexivity).
Defined.

(** ** C7 and C10: required arguments *)

Lemma arguments_get_absent (arguments : gmap string value) key :
  arguments !! key = None -> arguments_get arguments key = VNone.
Proof. intros H. unfold arguments_get. rewrite H. reflexivity. Qed.

(** C7. When a required argument is absent from the bag, each operation
    answers at once with a validation text and makes no control-plane
    call: [yaml_content] for apply and delete, [resource_type] for get and
    describe, [name] for describe. *)
Theorem missing_required_argument env (arguments : gmap string value) :
  (arguments !! "yaml_content" = None ->
   call_tool env "kubectl_apply" arguments
   = (inr "Error: yaml_content is required", [])
   /\ call_tool env "kubectl_delete" arguments
      = (inr "Error: yaml_content is required", []))
  /\ (arguments !! "resource_type" = None ->
      call_tool env "kubectl_get" arguments
      = (inr "Error: resource_type is required", [])
      /\ call_tool env "kubectl_describe" arguments
         = (inr "Error: resource_type is required", []))
  /\ (arguments !! "name" = None ->
      call_tool env "kubectl_describe" arguments
      = (inr (if truthy (arguments_get arguments "resource_type")
              then "Error: name is required"
              else "Error: resource_type is required"), [])).
Proof.
  split; [| split]; intros H; apply arguments_get_absent in H;
    unfold call_tool, kubectl_apply, kubectl_delete, kubectl_get, kubectl_describe;
    simpl String.eqb; cbv iota; rewrite ?H; try (split; reflexivity).
  destruct (truthy (arguments_get arguments "resource_type")); reflexivity.
Qed.

(** The empty bag, and a describe that names the kind only. *)
Lemma missing_required_argument_witness :
  call_tool Sample.env "kubectl_apply" ∅ = (inr "Error: yaml_content is required", [])
  /\ call_tool Sample.env "kubectl_delete" ∅ = (inr "Error: yaml_content is required", [])
  /\ call_tool Sample.env "kubectl_get" ∅ = (inr "Error: resource_type is required", [])
  /\ call_tool Sample.env "kubectl_describe" ∅ = (inr "Error: resource_type is required", [])
  /\ call_tool Sample.env "kubectl_describe" {[ "resource_type" := VStr "pod" ]}
     = (inr "Error: name is required", []).
Proof.
  pose proof (missing_required_argument Sample.env ∅) as (Hyaml & Htype & _).
  destruct (Hyaml eq_refl) as [Happly Hdelete].
  destruct (Htype eq_refl) as [Hget Hdescribe].
  split; [exact Happly | split; [exact Hdelete | split; [exact Hget |]]].
  split; [exact Hdescribe |].
  exact (proj2 (proj2 (missing_required_argument Sample.env
                         {[ "resource_type" := VStr "pod" ]})) eq_refl).
Defined.

(** C10. A required argument that is present but is the empty string is
    treated as an absent one: the invocation answers exactly as it does
    with the key removed, that is with the validation text and without a
    control-plane call. *)
Theorem empty_required_argument env (arguments : gmap string value) :
  (call_tool env "kubectl_apply" (<["yaml_content" := VStr ""]> arguments)
   = call_tool env "kubectl_apply" (delete "yaml_content" arguments)
   /\ call_tool env "kubectl_apply" (<["yaml_content" := VStr ""]> arguments)
      = (inr "Error: yaml_content is required", []))
  /\ (call_tool env "kubectl_delete" (<["yaml_content" := VStr ""]> arguments)
      = call_tool env "kubectl_delete" (delete "yaml_content" arguments)
      /\ call_tool env "kubectl_delete" (<["yaml_content" := VStr ""]> arguments)
         = (inr "Error: yaml_content is required", []))
  /\ (call_tool env "kubectl_get" (<["resource_type" := VStr ""]> arguments)
      = call_tool env "kubectl_get" (delete "resource_type" arguments)
      /\ call_tool env "kubectl_get" (<["resource_type" := VStr ""]> arguments)
         = (inr "Error: resource_type is required", []))
  /\ (call_tool env "kubectl_describe" (<["resource_type" := VStr ""]> arguments)
      = call_tool env "kubectl_describe" (delete "resource_type" arguments)
      /\ call_tool env "kubectl_describe" (<["resource_type" := VStr ""]> arguments)
         = (inr "Error: resource_type is required", []))
  /\ (call_tool env "kubectl_describe" (<["name" := VStr ""]> arguments)
      = call_tool env "kubectl_describe" (delete "name" arguments)
      /\ call_tool env "kubectl_describe" (<["name" := VStr ""]> arguments)
         = (inr (if truthy (arguments_get arguments "resource_type")
                 then "Error: name is required"
                 else "Error: resource_type is required"), [])).
Proof.
  assert (Hdel : forall key, arguments_get (delete key arguments) key = VNone).
  { intros key. unfold arguments_get. rewrite lookup_delete_eq. reflexivity. }
  assert (Hother : forall key key', key <> key' ->
            arguments_get (delete key arguments) key' = arguments_get arguments key').
  { intros key key' Hne. unfold arguments_get.
    rewrite lookup_delete_ne by exact Hne. reflexivity. }
  unfold call_tool, kubectl_apply, kubectl_delete, kubectl_get, kubectl_describe.
  simpl String.eqb. cbv iota.
  rewrite !arguments_get_insert, !Hdel.
  rewrite !arguments_get_insert_ne, !Hother by discriminate.
  simpl truthy. simpl negb. cbv iota.
  repeat split; destruct (truthy (arguments_get arguments "resource_type"));
    reflexivity.
Qed.

(** ** C8: the readiness fraction of a pod *)

Lemma pod_ready_one_of_two (c1 c2 : V1ContainerStatus) :
  xorb (cs_ready c1) (cs_ready c2) = true ->
  pod_ready (Some [c1; c2]) = "1/2".
Proof.
  unfold pod_ready. simpl.
  destruct (cs_ready c1), (cs_ready c2); try discriminate; reflexivity.
Qed.

Lemma pod_ready_absent : pod_ready None = "0/0".
Proof. reflexivity. Qed.

(** C8. The record [kubectl_get] builds for a pod, here asked for by name,
    has the string 1/2 as its [ready] field when the pod's status lists two
    container statuses of which exactly one is ready, and the string 0/0
    when the container statuses are absent; nothing is divided. *)
Theorem pod_readiness env arguments token name pod metadata spec status :
  arguments_get arguments "resource_type" = VStr token ->
  resolve token = Some Pod ->
  arguments_get arguments "name" = name ->
  truthy name = true ->
  read_namespaced_pod env name
    (arguments_get_default arguments "namespace" (VStr "default")) = inr pod ->
  pod_metadata pod = Some metadata ->
  pod_spec pod = Some spec ->
  pod_status pod = Some status ->
  exists fields,
    pod_summary (arguments_get_default arguments "namespace" (VStr "default")) pod
    = ret (VDict fields)
    /\ call_tool env "kubectl_get" arguments
       = (inr (json_dumps (VList [VDict fields])),
          [read_namespaced_pod_call name
             (arguments_get_default arguments "namespace" (VStr "default"))])
    /\ (forall c1 c2,
          podstatus_container_statuses status = Some [c1; c2] ->
          xorb (cs_ready c1) (cs_ready c2) = true ->
          assoc "ready" fields = Some (VStr "1/2"))
    /\ (podstatus_container_statuses status = None ->
        assoc "ready" fields = Some (VStr "0/0")).
Proof.
  intros Htok Hr Hname Htruthy Hread Hmeta Hspec Hstatus.
  eexists. split; [| split; [| split]].
  - unfold pod_summary. rewrite Hmeta, Hspec, Hstatus. reflexivity.
  - unfold call_tool, kubectl_get. simpl String.eqb. cbv iota.
    rewrite Htok, (truthy_VStr _ (resolve_nonempty _ _ Hr)). simpl negb. cbv iota.
    unfold value_lower. rewrite bind_ret.
    unfold get_result. chain token. rewrite Hname, Htruthy, Hread.
    rewrite bind_invoke. unfold pod_summary. rewrite Hmeta, Hspec, Hstatus.
    unfold getattr. rewrite !bind_ret. reflexivity.
  - intros c1 c2 Hcs Hone. simpl. rewrite Hcs.
    rewrite (pod_ready_one_of_two _ _ Hone). reflexivity.
  - intros Hcs. simpl. rewrite Hcs. reflexivity.
Qed.

(** The pod [web] of the sample cluster: two containers, one ready. *)
Lemma pod_readiness_witness :
  exists fields,
    call_tool Sample.env "kubectl_get"
      {[ "resource_type" := VStr "pod"; "name" := VStr "web" ]}
    = (inr (json_dumps (VList [VDict fields])),
       [read_namespaced_pod_call (VStr "web") (VStr "default")])
    /\ assoc "ready" fields = Some (VStr "1/2").
Proof.
  edestruct (pod_readiness Sample.env
               {[ "resource_type" := VStr "pod"; "name" := VStr "web" ]}
               "pod" (VStr "web") Sample.pod_web)
    as (fields & _ & Hcall & Hready & _); try reflexivity.
  exists fields. split; [exact Hcall |].
  exact (Hready _ _ eq_refl eq_refl).
Defined.

(** ** C5: what crosses the gateway boundary *)



(** The declared type is what keeps the boundary closed. In [kubectl_get]
    and [kubectl_describe] the token is lower-cased before the [try] is
    entered, so for a bag the schema refuses, with the integer 5 as
    [resource_type], [call_tool] taken alone raises the AttributeError, in
    any environment and before any control-plane call. *)
Lemma lower_before_try env :
  call_tool env "kubectl_get" {[ "resource_type" := VInt 5 ]}
  = (inl (Exn AttributeError "'int' object has no attribute 'lower'"), [])
  /\ call_tool env "kubectl_describe"
       {[ "resource_type" := VInt 5; "name" := VStr "web" ]}
     = (inl (Exn AttributeError "'int' object has no attribute 'lower'"), []).
Proof. split; reflexivity. Qed.

(** * Further properties of the gateway *)

(** ** What can leave [call_tool] as an exception *)

Lemma try_except_never_raises {A} (m : M A) (h : exn -> A) (e : exn) :
  outcome (try_except m (fun e => ret (h e))) <> inl e.
Proof. destruct (try_except_returns m h) as [a Ha]. rewrite Ha. discriminate. Qed.

(** The one way out of the four branches: [lower] on a token that is not
    a string. *)
Lemma operation_raises env name arguments e :
  In name (map tool_name list_tools) ->
  outcome (call_tool env name arguments) = inl e ->
  (name = "kubectl_get" \/ name = "kubectl_describe")
  /\ call_tool env name arguments
     = (inl (Exn AttributeError
          ("'" ++ type_name (arguments_get arguments "resource_type")
           ++ "' object has no attribute 'lower'")), [])
  /\ forall s, arguments_get arguments "resource_type" <> VStr s.
Proof.
  intros Hin. simpl in Hin.
  destruct Hin as [<- | [<- | [<- | [<- | []]]]];
    unfold call_tool; simpl String.eqb; cbv iota.
  - unfold kubectl_apply.
    destruct (negb (truthy (arguments_get arguments "yaml_content")));
      [discriminate |].
    intros H. exfalso. revert H. apply try_except_never_raises.
  - unfold kubectl_get.
    destruct (negb (truthy (arguments_get arguments "resource_type")));
      [discriminate |].
    destruct (arguments_get arguments "resource_type") as [| b | z | s | l | d] eqn:Hv;
      unfold value_lower; rewrite ?bind_ret;
      try (intros _; split; [auto | split; [reflexivity | discriminate]]).
    intros H. exfalso. revert H. apply try_except_never_raises.
  - unfold kubectl_describe.
    destruct (negb (truthy (arguments_get arguments "resource_type")));
      [discriminate |].
    destruct (negb (truthy (arguments_get arguments "name")));
      [discriminate |].
    destruct (arguments_get arguments "resource_type") as [| b | z | s | l | d] eqn:Hv;
      unfold value_lower; rewrite ?bind_ret;
      try (intros _; split; [auto | split; [reflexivity | discriminate]]).
    intros H. exfalso. revert H. apply try_except_never_raises.
  - unfold kubectl_delete.
    destruct (negb (truthy (arguments_get arguments "yaml_content")));
      [discriminate |].
    intros H. exfalso. revert H. apply try_except_never_raises.
Qed.

(** X1. [call_tool] serves exactly the tools [list_tools] advertises: for
    any other name it raises the unknown-tool ValueError that echoes the
    name, without a control-plane call, and for an advertised name it
    never raises a ValueError. *)
Theorem call_tool_serves_advertised env name arguments :
  (~ In name (map tool_name list_tools) ->
   call_tool env name arguments = (inl (Exn ValueError ("Unknown tool: " ++ name)), []))
  /\ (In name (map tool_name list_tools) ->
      forall msg, outcome (call_tool env name arguments) <> inl (Exn ValueError msg)).
Proof.
  split.
  - intros Hn. unfold call_tool. simpl in Hn.
    destruct (String.eqb_spec name "kubectl_apply") as [-> | _]; [tauto |].
    destruct (String.eqb_spec name "kubectl_get") as [-> | _]; [tauto |].
    destruct (String.eqb_spec name "kubectl_describe") as [-> | _]; [tauto |].
    destruct (String.eqb_spec name "kubectl_delete") as [-> | _]; [tauto |].
    reflexivity.
  - intros Hin msg H.
    destruct (operation_raises env name arguments _ Hin H) as (_ & Hcall & _).
    rewrite Hcall in H. discriminate H.
Qed.

(** An unknown tool and an advertised one against the sample cluster. *)
Lemma call_tool_serves_advertised_witness :
  call_tool Sample.env "kubectl_logs" ∅
  = (inl (Exn ValueError "Unknown tool: kubectl_logs"), [])
  /\ outcome (call_tool Sample.env "kubectl_get" ∅)
     <> inl (Exn ValueError "Unknown tool: kubectl_get").
Proof.
  pose proof (call_tool_serves_advertised Sample.env "kubectl_logs" ∅) as [Hout _].
  pose proof (call_tool_serves_advertised Sample.env "kubectl_get" ∅) as [_ Hin].
  split.
  - apply Hout. simpl. intros [H | [H | [H | [H | []]]]]; discriminate H.
  - apply Hin. simpl. auto.
Defined.

(** X2. The only exception an advertised operation lets through is the
    AttributeError of [lower] on a [resource_type] that is not a string:
    it comes from [kubectl_get] or [kubectl_describe], names the type of
    the token, and is raised before any control-plane call. *)
Theorem only_lower_escapes env name arguments e :
  In name (map tool_name list_tools) ->
  outcome (call_tool env name arguments) = inl e ->
  (name = "kubectl_get" \/ name = "kubectl_describe")
  /\ call_tool env name arguments
     = (inl (Exn AttributeError
          ("'" ++ type_name (arguments_get arguments "resource_type")
           ++ "' object has no attribute 'lower'")), [])
  /\ forall s, arguments_get arguments "resource_type" <> VStr s.
Proof. apply operation_raises. Qed.

(** A list as the token of a describe. *)
Lemma only_lower_escapes_witness :
  call_tool Sample.env "kubectl_describe"
    {[ "resource_type" := VList [VStr "pod"]; "name" := VStr "web" ]}
  = (inl (Exn AttributeError "'list' object has no attribute 'lower'"), []).
Proof.
  refine (proj1 (proj2 (only_lower_escapes Sample.env "kubectl_describe"
                          {[ "resource_type" := VList [VStr "pod"]; "name" := VStr "web" ]}
                          (Exn AttributeError "'list' object has no attribute 'lower'")
                          _ eq_refl))).
  simpl. auto.
Defined.

(** ** Validation follows the schemas *)

Lemma try_except_outcome {A} (m : M A) (h : exn -> A) (a : A) :
  outcome (try_except m (fun e => ret (h e))) = inr a ->
  (exists e, a = h e) \/ exists tr, m = (inr a, tr).
Proof.
  destruct m as [[e | a'] tr]; simpl; intros [= <-]; [left | right]; eauto.
Qed.

(** Takes a completed computation apart, down to the [ret] it ended in. *)
Ltac crack H :=
  repeat first
    [ match type of H with
      | bind _ _ = (inr _, _) =>
          let a := fresh "a" in
          let tr1 := fresh "tr" in
          let tr2 := fresh "tr" in
          let H1 := fresh "Hrun" in
          apply bind_inr in H as (a & tr1 & tr2 & H1 & H & ->)
      | (if ?b then _ else _) = (inr _, _) => destruct b
      | match ?x with _ => _ end = (inr _, _) => destruct x
      | ret _ = (inr _, _) => unfold ret in H; injection H as <- <-
      end ].

(** The texts each operation can answer with. *)
Lemma kubectl_apply_texts env arguments text :
  outcome (kubectl_apply env arguments) = inr text ->
  (truthy (arguments_get arguments "yaml_content") = false
   /\ text = "Error: yaml_content is required")
  \/ (exists e, text = "Error applying manifest: " ++ exn_str e)
  \/ (exists kind name, text = "Successfully applied " ++ kind ++ "/" ++ name).
Proof.
  unfold kubectl_apply.
  destruct (truthy (arguments_get arguments "yaml_content")); simpl negb; cbv iota.
  - intros H. apply try_except_outcome in H as [[e ->] | [tr H]]; [eauto |].
    crack H. right. right. eauto.
  - intros [= <-]. auto.
Qed.

Lemma kubectl_get_texts env arguments text :
  outcome (kubectl_get env arguments) = inr text ->
  (truthy (arguments_get arguments "resource_type") = false
   /\ text = "Error: resource_type is required")
  \/ (exists e, text = "Error getting resource: " ++ exn_str e)
  \/ (exists token, text = "Unsupported resource type: " ++ token)
  \/ (exists result, text = json_dumps (VList result)).
Proof.
  unfold kubectl_get.
  destruct (truthy (arguments_get arguments "resource_type")); simpl negb; cbv iota.
  - destruct (arguments_get arguments "resource_type"); try discriminate.
    unfold value_lower. rewrite bind_ret.
    intros H. apply try_except_outcome in H as [[e ->] | [tr H]]; [eauto |].
    crack H; eauto 6.
  - intros [= <-]. auto.
Qed.

Lemma kubectl_delete_texts env arguments text :
  outcome (kubectl_delete env arguments) = inr text ->
  (truthy (arguments_get arguments "yaml_content") = false
   /\ text = "Error: yaml_content is required")
  \/ In text ["Error: Invalid YAML content";
              "Error: Resource name not found in YAML";
              "Error: Resource kind not found in YAML"]
  \/ (exists e, text = "Error deleting resource: " ++ exn_str e)
  \/ (exists kind, text = "Generic deletion not fully implemented for " ++ kind)
  \/ (exists kind name namespace,
        text = "Successfully deleted " ++ kind ++ "/" ++ name
               ++ " from namespace " ++ namespace).
Proof.
  unfold kubectl_delete.
  destruct (truthy (arguments_get arguments "yaml_content")); simpl negb; cbv iota.
  - intros H. apply try_except_outcome in H as [[e ->] | [tr H]]; [eauto |].
    unfold delete_resource in H. crack H; simpl; eauto 10.
  - intros [= <-]. auto.
Qed.

Lemma describe_result_dict env token namespace name v tr :
  describe_result env token namespace name = (inr (Some v), tr) -> is_dict v.
Proof.
  unfold describe_result. intros H. crack H; try discriminate H;
    match goal with
    | Hd : _ = (inr ?x, _) |- is_dict ?x =>
        unfold pod_detail, deployment_detail, service_detail, node_detail in Hd;
        crack Hd; eexists; reflexivity
    end.
Qed.

Lemma kubectl_describe_texts env arguments text :
  outcome (kubectl_describe env arguments) = inr text ->
  (truthy (arguments_get arguments "resource_type") = false
   /\ text = "Error: resource_type is required")
  \/ (truthy (arguments_get arguments "resource_type") = true
      /\ truthy (arguments_get arguments "name") = false
      /\ text = "Error: name is required")
  \/ (exists e, text = "Error describing resource: " ++ exn_str e)
  \/ (exists token, text = "Unsupported resource type: " ++ token)
  \/ (exists fields, text = json_dumps (VDict fields)).
Proof.
  unfold kubectl_describe.
  destruct (truthy (arguments_get arguments "resource_type")); simpl negb; cbv iota;
    [| intros [= <-]; auto].
  destruct (truthy (arguments_get arguments "name")); simpl negb; cbv iota;
    [| intros [= <-]; auto].
  destruct (arguments_get arguments "resource_type"); try discriminate.
  unfold value_lower. rewrite bind_ret.
  intros H. apply try_except_outcome in H as [[e ->] | [tr H]]; [eauto |].
  apply bind_inr in H as ([v |] & tr1 & tr2 & Hd & H & ->);
    injection H as <- <-; [| eauto 6].
  apply describe_result_dict in Hd as [fields ->]. eauto 7.
Qed.

(** X3. Validation follows the advertised schema: for every advertised
    tool, the first required argument in schema order that the bag lacks,
    or holds with a falsy value, is the one named in the answer, and no
    control-plane call is made; when no required argument is missing, the
    answer is no such text for any argument of the schema. *)
Theorem validation_follows_schema env tool arguments :
  In tool list_tools ->
  (forall key,
     first_missing tool arguments = Some key ->
     call_tool env (tool_name tool) arguments
     = (inr ("Error: " ++ key ++ " is required"), []))
  /\ (first_missing tool arguments = None ->
      forall key, In key (properties tool) ->
      outcome (call_tool env (tool_name tool) arguments)
      <> inr ("Error: " ++ key ++ " is required")).
Proof.
  intros Hin. simpl in Hin. split.
  - intros key.
    destruct Hin as [<- | [<- | [<- | [<- | []]]]];
      unfold first_missing, call_tool, kubectl_apply, kubectl_get, kubectl_describe,
        kubectl_delete; simpl;
      repeat match goal with
             | |- context [negb (truthy ?v)] => destruct (negb (truthy v))
             end;
      intros H; try discriminate H; injection H as <-; reflexivity.
  - destruct Hin as [<- | [<- | [<- | [<- | []]]]];
      unfold first_missing; simpl List.find;
      intros Hnone key Hkey Hout; simpl in Hkey;
      unfold call_tool in Hout; simpl String.eqb in Hout; cbv iota in Hout.
    + apply kubectl_apply_texts in Hout as [[Hv _] | [[e H] | (k & n & H)]];
        [rewrite Hv in Hnone; discriminate Hnone | |];
        destruct Hkey as [<- | [<- | []]]; discriminate H.
    + apply kubectl_get_texts in Hout as [[Hv _] | [[e H] | [[t H] | [r H]]]];
        [rewrite Hv in Hnone; discriminate Hnone | | |];
        destruct Hkey as [<- | [<- | [<- | []]]]; try discriminate H;
        destruct r; discriminate H.
    + apply kubectl_describe_texts in Hout
        as [[Hv _] | [(Hv & Hn & _) | [[e H] | [[t H] | [r H]]]]];
        [rewrite Hv in Hnone; discriminate Hnone
        |rewrite Hv, Hn in Hnone; discriminate Hnone | | |];
        destruct Hkey as [<- | [<- | [<- | []]]]; try discriminate H;
        destruct r as [| [] ?]; discriminate H.
    + apply kubectl_delete_texts in Hout
        as [[Hv _] | [Hin | [[e H] | [[k H] | (k & n & ns & H)]]]];
        [rewrite Hv in Hnone; discriminate Hnone | | | |];
        try (simpl in Hin; destruct Hin as [H | [H | [H | []]]]);
        destruct Hkey as [<- | [<- | []]]; discriminate H.
Qed.

(** A describe that names the kind only. *)
Lemma validation_follows_schema_witness :
  call_tool Sample.env "kubectl_describe" {[ "resource_type" := VStr "pod" ]}
  = (inr "Error: name is required", []).
Proof.
  refine (proj1 (validation_follows_schema Sample.env
                   (nth 2 list_tools (Build_Tool "" "" VNone))
                   {[ "resource_type" := VStr "pod" ]} _) "name" eq_refl).
  simpl. right. right. left. reflexivity.
Defined.

(** ** The openings of an answer *)

Lemma prefix_app (p s : string) : String.prefix p (p ++ s) = true.
Proof.
  induction p as [| c p IH]; simpl; [destruct s; reflexivity |].
  rewrite IH. destruct (ascii_dec c c); [reflexivity | contradiction].
Qed.

Lemma prefix_refl (p : string) : String.prefix p p = true.
Proof.
  induction p as [| c p IH]; simpl; [reflexivity |].
  rewrite IH. destruct (ascii_dec c c); [reflexivity | contradiction].
Qed.

Lemma json_array_prefix (l : list value) : String.prefix "[" (json_dumps (VList l)) = true.
Proof. destruct l; reflexivity. Qed.

Lemma json_object_prefix (d : list (string * value)) :
  String.prefix "{" (json_dumps (VDict d)) = true.
Proof. destruct d as [| [k x] d]; reflexivity. Qed.

(** X4. Every text an advertised operation answers with begins with one
    of the fixed openings of that operation: a validation text, the
    prefix of a failure or of a success, or the bracket of its JSON
    payload (an array for get, an object for describe). *)
Theorem answers_begin_alike env name arguments text :
  In name (map tool_name list_tools) ->
  outcome (call_tool env name arguments) = inr text ->
  begins_with (openings name) text = true.
Proof.
  intros Hin. simpl in Hin.
  destruct Hin as [<- | [<- | [<- | [<- | []]]]];
    unfold call_tool; simpl String.eqb; cbv iota; intros H;
    unfold begins_with, openings; simpl String.eqb; cbv iota; cbn [existsb].
  - apply kubectl_apply_texts in H as [[_ ->] | [[e ->] | (k & n & ->)]];
      rewrite ?prefix_app, ?prefix_refl, ?orb_true_r; reflexivity.
  - apply kubectl_get_texts in H as [[_ ->] | [[e ->] | [[t ->] | [r ->]]]];
      rewrite ?prefix_app, ?prefix_refl, ?json_array_prefix, ?orb_true_r; reflexivity.
  - apply kubectl_describe_texts in H
      as [[_ ->] | [(_ & _ & ->) | [[e ->] | [[t ->] | [r ->]]]]];
      rewrite ?prefix_app, ?prefix_refl, ?json_object_prefix, ?orb_true_r; reflexivity.
  - apply kubectl_delete_texts in H
      as [[_ ->] | [Hin | [[e ->] | [[k ->] | (k & n & ns & ->)]]]];
      try (simpl in Hin; destruct Hin as [<- | [<- | [<- | []]]]);
      rewrite ?prefix_app, ?prefix_refl, ?orb_true_r; reflexivity.
Qed.

(** Deleting the node of the sample cluster: the answer opens as an
    unimplemented deletion. *)
Lemma answers_begin_alike_witness :
  begins_with (openings "kubectl_delete")
    "Generic deletion not fully implemented for node" = true.
Proof.
  refine (answers_begin_alike Sample.env "kubectl_delete"
            {[ "yaml_content" := VStr Sample.node_yaml ]} _ _ eq_refl).
  simpl. auto.
Defined.

(** ** The calls of an invocation *)

Section Calls.
Context {A B : Type}.

Lemma calls_bind (m : M A) (k : A -> M B) :
  calls (bind m k)
  = (calls m ++ match outcome m with inr a => calls (k a) | inl _ => [] end)%list.
Proof.
  destruct m as [[e | a] tr]; simpl; [rewrite app_nil_r; reflexivity |].
  destruct (k a); reflexivity.
Qed.

Lemma calls_try_except (m : M A) (h : exn -> A) :
  calls (try_except m (fun e => ret (h e))) = calls m.
Proof. destruct m as [[e | a] tr]; simpl; [apply app_nil_r | reflexivity]. Qed.

Lemma calls_invoke (c : Call) (answer : exn + A) : calls (invoke c answer) = [c].
Proof. reflexivity. Qed.

End Calls.

Lemma mapM_pure {A B} (f : A -> M B) (l : list A) :
  (forall x, calls (f x) = []) -> calls (mapM f l) = [].
Proof.
  intros Hf. induction l as [| x l IH]; [reflexivity |].
  cbn [mapM]. rewrite calls_bind, Hf. destruct (outcome (f x)); [reflexivity |].
  rewrite calls_bind, IH. destruct (outcome (mapM f l)); reflexivity.
Qed.

Lemma getattr_pure {A} (o : option A) attr : calls (getattr o attr) = [].
Proof. destruct o; reflexivity. Qed.

(** Building a record asks nothing of the control plane. *)
Lemma pod_summary_pure namespace pod : calls (pod_summary namespace pod) = [].
Proof.
  unfold pod_summary.
  destruct (pod_metadata pod), (pod_status pod), (pod_spec pod); reflexivity.
Qed.

Lemma deployment_summary_pure namespace dep : calls (deployment_summary namespace dep) = [].
Proof.
  unfold deployment_summary.
  destruct (dep_metadata dep), (dep_status dep), (dep_spec dep); reflexivity.
Qed.

Lemma service_summary_pure namespace svc : calls (service_summary namespace svc) = [].
Proof.
  unfold service_summary. destruct (svc_metadata svc), (svc_spec svc); reflexivity.
Qed.

Lemma namespace_summary_pure ns : calls (namespace_summary ns) = [].
Proof.
  unfold namespace_summary. destruct (ns_metadata ns), (ns_status ns); reflexivity.
Qed.

Lemma role_of_label_pure label : calls (role_of_label label) = [].
Proof. unfold role_of_label. destruct (split "/" label) as [| ? [| ? ?]]; reflexivity. Qed.

Lemma node_roles_pure labels : calls (node_roles labels) = [].
Proof.
  unfold node_roles. rewrite calls_bind, mapM_pure by apply role_of_label_pure.
  destruct (outcome _); reflexivity.
Qed.

Lemma node_summary_pure node : calls (node_summary node) = [].
Proof.
  unfold node_summary.
  destruct (node_status node) as [status |]; [| reflexivity].
  cbn [getattr]. rewrite bind_ret.
  destruct (nodestatus_conditions status); [| reflexivity].
  cbn [iter]. rewrite bind_ret.
  destruct (node_metadata node) as [metadata |]; [| reflexivity].
  cbn [getattr]. rewrite bind_ret.
  destruct (meta_labels metadata) as [labels |]; [| reflexivity].
  cbn [getattr]. rewrite bind_ret.
  rewrite calls_bind, node_roles_pure.
  destruct (outcome (node_roles labels)); [reflexivity |].
  destruct (nodestatus_node_info status); [| reflexivity].
  destruct (nodestatus_addresses status); reflexivity.
Qed.

Lemma pod_detail_pure pod : calls (pod_detail pod) = [].
Proof.
  unfold pod_detail.
  destruct (pod_metadata pod), (pod_status pod), (pod_spec pod); reflexivity.
Qed.

Lemma deployment_detail_pure dep : calls (deployment_detail dep) = [].
Proof.
  unfold deployment_detail.
  destruct (dep_metadata dep); [| reflexivity].
  destruct (dep_spec dep) as [spec |]; [| reflexivity].
  cbn [getattr]. rewrite !bind_ret.
  destruct (dep_status dep); [| reflexivity].
  destruct (depspec_strategy spec); reflexivity.
Qed.

Lemma service_detail_pure svc : calls (service_detail svc) = [].
Proof.
  unfold service_detail. destruct (svc_metadata svc), (svc_spec svc); reflexivity.
Qed.

Lemma node_detail_pure node : calls (node_detail node) = [].
Proof.
  unfold node_detail.
  destruct (node_metadata node); [| reflexivity].
  destruct (node_status node) as [status |]; [| reflexivity].
  cbn [getattr]. rewrite !bind_ret.
  destruct (nodestatus_node_info status); reflexivity.
Qed.

(** One call, then records built from its answer. *)
Lemma one_call_then_pure {A B C} (verbs : list Verb) (c : Call) (answer : exn + A)
    (build : A -> M B) (finish : B -> C) :
  In (verb c) verbs ->
  (forall a, calls (build a) = []) ->
  one_call_of verbs
    (calls (let* a := invoke c answer in let* b := build a in ret (finish b))).
Proof.
  intros Hv Hb. right. exists c. split; [| exact Hv].
  rewrite calls_bind, calls_invoke. unfold outcome, invoke. cbn [fst].
  destruct answer as [e | a]; [reflexivity |].
  rewrite calls_bind, Hb. destruct (outcome (build a)); reflexivity.
Qed.

Lemma get_result_calls env resource_type namespace name :
  one_call_of [Reads; Lists] (calls (get_result env resource_type namespace name)).
Proof.
  unfold get_result.
  repeat match goal with
         | |- context [if ?b then _ else _] => destruct b
         end;
    try (left; reflexivity);
    apply one_call_then_pure; simpl; auto;
    intros; try apply mapM_pure;
    auto using pod_summary_pure, deployment_summary_pure, service_summary_pure,
      node_summary_pure, namespace_summary_pure.
Qed.

Lemma describe_result_calls env resource_type namespace name :
  one_call_of [Reads] (calls (describe_result env resource_type namespace name)).
Proof.
  unfold describe_result.
  repeat match goal with
         | |- context [if ?b then _ else _] => destruct b
         end;
    try (left; reflexivity);
    apply one_call_then_pure; simpl; auto;
    auto using pod_detail_pure, deployment_detail_pure, service_detail_pure,
      node_detail_pure.
Qed.

Lemma value_get_pure v key dflt : calls (value_get v key dflt) = [].
Proof. destruct v; reflexivity. Qed.

Lemma kubectl_apply_calls env arguments :
  one_call_of [Creates] (calls (kubectl_apply env arguments)).
Proof.
  unfold kubectl_apply.
  destruct (negb (truthy (arguments_get arguments "yaml_content")));
    [left; reflexivity |].
  rewrite calls_try_except, calls_bind.
  destruct (safe_load_all env (arguments_get arguments "yaml_content"))
    as [[e | docs] tr] eqn:Hload.
  - left. unfold safe_load_all, not_a_stream in Hload.
    destruct (arguments_get arguments "yaml_content"); try (injection Hload as _ <-; reflexivity).
    destruct (yaml_stream env s); injection Hload as _ <-; reflexivity.
  - assert (tr = []) as ->.
    { unfold safe_load_all, not_a_stream in Hload.
      destruct (arguments_get arguments "yaml_content"); try discriminate Hload.
      destruct (yaml_stream env s); [injection Hload as _ <-; reflexivity | discriminate Hload]. }
    right. exists (create_from_yaml_call docs (arguments_get arguments "namespace")).
    split; [| left; reflexivity].
    cbn [outcome calls fst snd app].
    rewrite calls_bind, calls_invoke. unfold outcome, invoke. cbn [fst].
    destruct (create_from_yaml env docs (arguments_get arguments "namespace"));
      [reflexivity |].
    destruct docs as [| doc docs]; [reflexivity |].
    cbn [first_doc]. rewrite bind_ret.
    destruct doc; try reflexivity.
    cbn [value_get]. rewrite bind_ret.
    destruct (default (VDict []) (assoc "metadata" entries)); reflexivity.
Qed.

Lemma pure_bind {A B} (verbs : list Verb) (m : M A) (k : A -> M B) :
  calls m = [] ->
  (forall a, one_call_of verbs (calls (k a))) ->
  one_call_of verbs (calls (bind m k)).
Proof.
  intros Hm Hk. rewrite calls_bind, Hm.
  destruct (outcome m); [left; reflexivity | apply Hk].
Qed.

Lemma safe_load_pure env content : calls (safe_load env content) = [].
Proof.
  unfold safe_load. destruct content; try reflexivity.
  destruct (yaml_stream env s) as [[| doc [| doc' docs]] | e]; reflexivity.
Qed.

Lemma value_lower_pure v : calls (value_lower v) = [].
Proof. destruct v; reflexivity. Qed.

Lemma delete_resource_calls env resource_kind name namespace :
  one_call_of [Deletes] (calls (delete_resource env resource_kind name namespace)).
Proof.
  unfold delete_resource.
  repeat match goal with
         | |- context [if ?b then _ else _] => destruct b
         end;
    try (left; reflexivity);
    right; eexists;
    (split;
     [ rewrite calls_bind, calls_invoke; destruct (outcome _); reflexivity
     | left; reflexivity ]).
Qed.

Lemma kubectl_delete_calls env arguments :
  one_call_of [Deletes] (calls (kubectl_delete env arguments)).
Proof.
  unfold kubectl_delete.
  destruct (negb (truthy (arguments_get arguments "yaml_content")));
    [left; reflexivity |].
  rewrite calls_try_except.
  apply pure_bind; [apply safe_load_pure | intros manifest].
  destruct (negb (truthy manifest)); [left; reflexivity |].
  apply pure_bind; [apply value_get_pure | intros metadata].
  apply pure_bind; [apply value_get_pure | intros resource_name].
  destruct (negb (truthy resource_name)); [left; reflexivity |].
  apply pure_bind; [apply value_get_pure | intros kind].
  apply pure_bind; [apply value_lower_pure | intros resource_kind].
  destruct (negb (truthy (VStr resource_kind))); [left; reflexivity |].
  apply pure_bind; [| intros resource_namespace; apply delete_resource_calls].
  destruct (truthy (arguments_get arguments "namespace")); [reflexivity |].
  rewrite calls_bind, value_get_pure.
  destruct (outcome _); [reflexivity | apply value_get_pure].
Qed.

(** X5. An invocation makes at most one control-plane call, and that call
    is of the operation's own kind: apply only creates, get only reads or
    lists, describe only reads, delete only deletes; an unknown tool calls
    nothing. *)
Theorem one_call_per_invocation env name arguments :
  one_call_of (verbs_of name) (calls (call_tool env name arguments)).
Proof.
  unfold call_tool, verbs_of.
  destruct (String.eqb name "kubectl_apply"); [apply kubectl_apply_calls |].
  destruct (String.eqb name "kubectl_get").
  { unfold kubectl_get.
    destruct (negb (truthy (arguments_get arguments "resource_type")));
      [left; reflexivity |].
    apply pure_bind; [apply value_lower_pure | intros resource_type].
    rewrite calls_try_except.
    rewrite calls_bind.
    destruct (get_result_calls env resource_type
                (arguments_get_default arguments "namespace" (VStr "default"))
                (arguments_get arguments "name")) as [Hc | (c & Hc & Hv)];
      rewrite Hc.
    - left. destruct (outcome _) as [e | [r |]]; reflexivity.
    - right. exists c. split; [| exact Hv].
      destruct (outcome _) as [e | [r |]]; reflexivity. }
  destruct (String.eqb name "kubectl_describe").
  { unfold kubectl_describe.
    destruct (negb (truthy (arguments_get arguments "resource_type")));
      [left; reflexivity |].
    destruct (negb (truthy (arguments_get arguments "name")));
      [left; reflexivity |].
    apply pure_bind; [apply value_lower_pure | intros resource_type].
    rewrite calls_try_except.
    rewrite calls_bind.
    destruct (describe_result_calls env resource_type
                (arguments_get_default arguments "namespace" (VStr "default"))
                (arguments_get arguments "name")) as [Hc | (c & Hc & Hv)];
      rewrite Hc.
    - left. destruct (outcome _) as [e | [r |]]; reflexivity.
    - right. exists c. split; [| exact Hv].
      destruct (outcome _) as [e | [r |]]; reflexivity. }
  destruct (String.eqb name "kubectl_delete"); [apply kubectl_delete_calls |].
  left. reflexivity.
Qed.

Lemma calls_bind_pure {A B} (m : M A) (k : A -> M B) :
  (forall a, calls (k a) = []) -> calls (bind m k) = calls m.
Proof.
  intros Hk. rewrite calls_bind. destruct (outcome m); rewrite ?Hk; apply app_nil_r.
Qed.

Lemma get_answer_pure (token : string) (result : option (list value)) :
  calls (match result with
         | None => ret ("Unsupported resource type: " ++ token)
         | Some result => ret (json_dumps (VList result))
         end) = [].
Proof. destruct result; reflexivity. Qed.

Lemma list_then_summaries {A} (c : Call) (answer : exn + list A) (f : A -> M value) :
  (forall x, calls (f x) = []) ->
  calls (let* items := invoke c answer in
         let* ss := mapM f items in ret (Some ss)) = [c].
Proof.
  intros Hf. rewrite calls_bind_pure; [reflexivity |].
  intros items. rewrite calls_bind_pure; [apply mapM_pure, Hf | reflexivity].
Qed.

(** ** Namespaces in get and describe *)

(** One lookup, then the record built from its answer. *)
Lemma read_then_record {A B C} (c : Call) (answer : exn + A)
    (build : A -> M B) (finish : B -> C) :
  (forall a, calls (build a) = []) ->
  calls (let* a := invoke c answer in let* b := build a in ret (finish b)) = [c].
Proof.
  intros Hb. rewrite calls_bind_pure; [reflexivity |].
  intros a. rewrite calls_bind_pure; [apply Hb | reflexivity].
Qed.

Lemma describe_answer_pure (token : string) (description : option value) :
  calls (match description with
         | None => ret ("Unsupported resource type: " ++ token)
         | Some description => ret (json_dumps description)
         end) = [].
Proof. destruct description; reflexivity. Qed.

(** X6. In get and describe the default namespace stands in for an absent
    key only: a bag without [namespace] is answered like the same bag with
    the namespace [default], while a namespace that is present is passed
    to the control plane as it is, be it null or the empty string. For
    each of the namespaced kinds (pod, deployment, service) it is the
    namespace of the listing when get has no name, and of the lookup when
    get or describe has one. *)
Theorem namespace_default_when_absent env (arguments : gmap string value) :
  (arguments !! "namespace" = None ->
   call_tool env "kubectl_get" arguments
   = call_tool env "kubectl_get" (<["namespace" := VStr "default"]> arguments)
   /\ call_tool env "kubectl_describe" arguments
      = call_tool env "kubectl_describe" (<["namespace" := VStr "default"]> arguments))
  /\ (forall token k namespace,
        arguments !! "namespace" = Some namespace ->
        arguments_get arguments "resource_type" = VStr token ->
        resolve token = Some k ->
        namespaced k = true ->
        (truthy (arguments_get arguments "name") = false ->
         calls (call_tool env "kubectl_get" arguments)
         = [list_call k namespace])
        /\ (truthy (arguments_get arguments "name") = true ->
            calls (call_tool env "kubectl_get" arguments)
            = [read_call k (arguments_get arguments "name") namespace]
            /\ calls (call_tool env "kubectl_describe" arguments)
               = [read_call k (arguments_get arguments "name") namespace])).
Proof.
  split.
  - intros Hns.
    assert (Hd : arguments_get_default arguments "namespace" (VStr "default")
                 = VStr "default")
      by (unfold arguments_get_default; rewrite Hns; reflexivity).
    assert (Hd' : arguments_get_default (<["namespace" := VStr "default"]> arguments)
                    "namespace" (VStr "default") = VStr "default")
      by (unfold arguments_get_default; rewrite lookup_insert_eq; reflexivity).
    unfold call_tool, kubectl_get, kubectl_describe. simpl String.eqb. cbv iota.
    rewrite !arguments_get_insert_ne by discriminate. rewrite Hd, Hd'.
    split; reflexivity.
  - intros token k namespace Hns Htok Hr Hk.
    assert (Hd : arguments_get_default arguments "namespace" (VStr "default")
                 = namespace)
      by (unfold arguments_get_default; rewrite Hns; reflexivity).
    split; [intros Hname | intros Hname; split];
      unfold call_tool, kubectl_get, kubectl_describe; simpl String.eqb; cbv iota;
      rewrite Htok, (truthy_VStr _ (resolve_nonempty _ _ Hr)), ?Hname;
      simpl negb; cbv iota;
      unfold value_lower; rewrite bind_ret, calls_try_except, Hd;
      rewrite calls_bind_pure by (apply get_answer_pure || apply describe_answer_pure);
      unfold get_result, describe_result;
      destruct k; try discriminate Hk; chain token; rewrite ?Hname;
      cbn [list_call read_call].
    + apply list_then_summaries, pod_summary_pure.
    + apply list_then_summaries, deployment_summary_pure.
    + apply list_then_summaries, service_summary_pure.
    + apply read_then_record, pod_summary_pure.
    + apply read_then_record, deployment_summary_pure.
    + apply read_then_record, service_summary_pure.
    + apply read_then_record, pod_detail_pure.
    + apply read_then_record, deployment_detail_pure.
    + apply read_then_record, service_detail_pure.
Qed.

(** The sample cluster: no namespace gives the pods of [default]; the
    empty string is passed on, to the listing of get and to the lookup of
    describe. *)
Lemma namespace_default_when_absent_witness :
  call_tool Sample.env "kubectl_get" {[ "resource_type" := VStr "pods" ]}
  = call_tool Sample.env "kubectl_get"
      {[ "resource_type" := VStr "pods"; "namespace" := VStr "default" ]}
  /\ calls (call_tool Sample.env "kubectl_get"
              {[ "resource_type" := VStr "pods"; "namespace" := VStr "" ]})
     = [list_namespaced_pod_call (VStr "")]
  /\ calls (call_tool Sample.env "kubectl_describe"
              {[ "resource_type" := VStr "pods"; "name" := VStr "web";
                 "namespace" := VStr "" ]})
     = [read_namespaced_pod_call (VStr "web") (VStr "")].
Proof.
  split; [| split].
  - pose proof (proj1 (proj1 (namespace_default_when_absent Sample.env
                                {[ "resource_type" := VStr "pods" ]}) eq_refl)) as H.
    exact H.
  - exact (proj1 (proj2 (namespace_default_when_absent Sample.env
                           {[ "resource_type" := VStr "pods"; "namespace" := VStr "" ]})
                        "pods" Pod (VStr "") eq_refl eq_refl eq_refl eq_refl) eq_refl).
  - exact (proj2 (proj2 (proj2 (namespace_default_when_absent Sample.env
                                  {[ "resource_type" := VStr "pods"; "name" := VStr "web";
                                     "namespace" := VStr "" ]})
                               "pods" Pod (VStr "") eq_refl eq_refl eq_refl eq_refl)
                        eq_refl)).
Defined.

(** X7. For the cluster-scoped kinds the namespace argument has no effect:
    a get of nodes or namespaces, and a describe of a node, answer the
    same whatever namespace the bag holds. *)
Theorem cluster_scoped_ignore_namespace env (arguments : gmap string value)
    token namespace1 namespace2 :
  arguments_get arguments "resource_type" = VStr token ->
  (resolve token = Some Node \/ resolve token = Some Namespace ->
   call_tool env "kubectl_get" (<["namespace" := namespace1]> arguments)
   = call_tool env "kubectl_get" (<["namespace" := namespace2]> arguments))
  /\ (resolve token = Some Node ->
      call_tool env "kubectl_describe" (<["namespace" := namespace1]> arguments)
      = call_tool env "kubectl_describe" (<["namespace" := namespace2]> arguments)).
Proof.
  intros Htok. split.
  - intros Hr. unfold call_tool, kubectl_get. simpl String.eqb. cbv iota.
    rewrite !arguments_get_insert_ne by discriminate. rewrite Htok.
    destruct (negb (truthy (VStr token))); [reflexivity |].
    unfold value_lower. rewrite !bind_ret. unfold get_result.
    destruct Hr as [Hr | Hr]; chain token; reflexivity.
  - intros Hr. unfold call_tool, kubectl_describe. simpl String.eqb. cbv iota.
    rewrite !arguments_get_insert_ne by discriminate. rewrite Htok.
    destruct (negb (truthy (VStr token))); [reflexivity |].
    destruct (negb (truthy (arguments_get arguments "name"))); [reflexivity |].
    unfold value_lower. rewrite !bind_ret. unfold describe_result.
    chain token. reflexivity.
Qed.

(** The nodes of the sample cluster, asked for in two namespaces. *)
Lemma cluster_scoped_ignore_namespace_witness :
  call_tool Sample.env "kubectl_get"
    (<["namespace" := VStr "kube-system"]> {[ "resource_type" := VStr "nodes" ]})
  = call_tool Sample.env "kubectl_get"
      (<["namespace" := VNone]> {[ "resource_type" := VStr "nodes" ]}).
Proof.
  exact (proj1 (cluster_scoped_ignore_namespace Sample.env
                  {[ "resource_type" := VStr "nodes" ]} "nodes"
                  (VStr "kube-system") VNone eq_refl) (or_introl eq_refl)).
Defined.

(** ** Listings *)

(** X8. A listing of a kind of which the control plane holds no object in
    scope answers with the text of the empty array. *)
Theorem empty_listing env arguments token :
  arguments_get arguments "resource_type" = VStr token ->
  truthy (arguments_get arguments "name") = false ->
  objects_in_scope env token
    (arguments_get_default arguments "namespace" (VStr "default")) = Some 0%nat ->
  outcome (call_tool env "kubectl_get" arguments) = inr "[]".
Proof.
  intros Htok Hname Hscope.
  assert (Hr : exists k, resolve token = Some k).
  { unfold objects_in_scope in Hscope. destruct (resolve token); [eauto | discriminate]. }
  destruct Hr as [k Hr].
  unfold call_tool, kubectl_get. simpl String.eqb. cbv iota.
  rewrite Htok, (truthy_VStr _ (resolve_nonempty _ _ Hr)). simpl negb. cbv iota.
  unfold value_lower. rewrite bind_ret.
  unfold objects_in_scope in Hscope. rewrite Hr in Hscope.
  unfold get_result. destruct k; chain token; rewrite Hname;
    match type of Hscope with
    | listed ?answer = _ =>
        destruct answer as [e | [| x items]]; try discriminate Hscope; reflexivity
    end.
Qed.

(** The deployments of the sample cluster: there are none. *)
Lemma empty_listing_witness :
  outcome (call_tool Sample.env "kubectl_get" {[ "resource_type" := VStr "deployments" ]})
  = inr "[]".
Proof.
  exact (empty_listing Sample.env {[ "resource_type" := VStr "deployments" ]}
           "deployments" eq_refl eq_refl eq_refl).
Defined.

Lemma pod_summary_outcome namespace pod :
  if pod_complete pod
  then exists record, pod_summary namespace pod = ret record
  else exists attr,
         In attr ["name"; "phase"; "node_name"]
         /\ pod_summary namespace pod
            = raise (Exn AttributeError
                       ("'NoneType' object has no attribute '" ++ attr ++ "'")).
Proof.
  unfold pod_complete, pod_summary.
  destruct (pod_metadata pod), (pod_status pod), (pod_spec pod); simpl;
    eauto 7.
Qed.

Lemma pod_summaries_fail namespace pods :
  forallb pod_complete pods = false ->
  exists attr,
    In attr ["name"; "phase"; "node_name"]
    /\ mapM (pod_summary namespace) pods
       = raise (Exn AttributeError
                  ("'NoneType' object has no attribute '" ++ attr ++ "'")).
Proof.
  induction pods as [| pod pods IH]; [discriminate |].
  cbn [forallb mapM]. pose proof (pod_summary_outcome namespace pod) as Hp.
  destruct (pod_complete pod).
  - destruct Hp as [record ->]. cbn [andb]. intros H.
    destruct (IH H) as (attr & Hin & ->). exists attr. split; [exact Hin |].
    rewrite bind_ret. reflexivity.
  - destruct Hp as (attr & Hin & ->). intros _. exists attr. split; [exact Hin |].
    reflexivity.
Qed.

(** X9. A listing is all or nothing: when one of the listed pods comes
    without its metadata, its status or its spec, the answer is the text
    of the attribute error and no array at all, not even of the pods
    before it. *)
Theorem listing_all_or_nothing env arguments token pods :
  arguments_get arguments "resource_type" = VStr token ->
  resolve token = Some Pod ->
  truthy (arguments_get arguments "name") = false ->
  list_namespaced_pod env
    (arguments_get_default arguments "namespace" (VStr "default")) = inr pods ->
  forallb pod_complete pods = false ->
  exists attr,
    In attr ["name"; "phase"; "node_name"]
    /\ call_tool env "kubectl_get" arguments
       = (inr ("Error getting resource: 'NoneType' object has no attribute '"
               ++ attr ++ "'"),
          [list_namespaced_pod_call
             (arguments_get_default arguments "namespace" (VStr "default"))]).
Proof.
  intros Htok Hr Hname Hlist Hbad.
  destruct (pod_summaries_fail
              (arguments_get_default arguments "namespace" (VStr "default"))
              pods Hbad) as (attr & Hin & Hfail).
  exists attr. split; [exact Hin |].
  unfold call_tool, kubectl_get. simpl String.eqb. cbv iota.
  rewrite Htok, (truthy_VStr _ (resolve_nonempty _ _ Hr)). simpl negb. cbv iota.
  unfold value_lower. rewrite bind_ret.
  unfold get_result. chain token. rewrite Hname, Hlist, bind_invoke, Hfail.
  reflexivity.
Qed.

(** The pod [web] followed by a pod without status. *)
Lemma listing_all_or_nothing_witness :
  exists attr,
    In attr ["name"; "phase"; "node_name"]
    /\ call_tool (with_pods Sample.env [Sample.pod_web; pod_without_status])
         "kubectl_get" {[ "resource_type" := VStr "pods" ]}
       = (inr ("Error getting resource: 'NoneType' object has no attribute '"
               ++ attr ++ "'"),
          [list_namespaced_pod_call (VStr "default")]).
Proof.
  destruct (listing_all_or_nothing
              (with_pods Sample.env [Sample.pod_web; pod_without_status])
              {[ "resource_type" := VStr "pods" ]} "pods"
              [Sample.pod_web; pod_without_status])
    as (attr & Hin & H); try reflexivity.
  exists attr. split; [exact Hin | exact H].
Defined.

(** ** The steps of [kubectl_delete] *)

(** [kubectl_delete] on a manifest of one document, past the decoder. *)
Lemma kubectl_delete_single env arguments doc :
  single_document env arguments doc ->
  call_tool env "kubectl_delete" arguments
  = try_except
      (let* manifest := ret doc in
       if negb (truthy manifest) then ret "Error: Invalid YAML content"
       else
         let* metadata := value_get manifest "metadata" (VDict []) in
         let* resource_name := value_get metadata "name" VNone in
         if negb (truthy resource_name) then ret "Error: Resource name not found in YAML"
         else
           let* kind := value_get manifest "kind" (VStr "") in
           let* resource_kind := value_lower kind in
           if negb (truthy (VStr resource_kind))
           then ret "Error: Resource kind not found in YAML"
           else
             let* resource_namespace :=
               if truthy (arguments_get arguments "namespace")
               then ret (arguments_get arguments "namespace")
               else
                 let* metadata := value_get manifest "metadata" (VDict []) in
                 value_get metadata "namespace" (VStr "default") in
             delete_resource env resource_kind resource_name resource_namespace)
      (fun e => ret ("Error deleting resource: " ++ exn_str e)).
Proof.
  intros (text & Hc & Ht & Hy).
  unfold call_tool, kubectl_delete. simpl String.eqb. cbv iota.
  rewrite Hc, (truthy_VStr _ Ht). simpl negb. cbv iota.
  unfold safe_load. rewrite Hy. reflexivity.
Qed.

(** X10. The checks of [kubectl_delete] come in a fixed order, each with
    its own text and none with a control-plane call: a document that is
    empty or falsy is invalid YAML; then a mapping without a non-empty
    [metadata.name] lacks its name, whatever its kind; then a named
    mapping whose kind is missing or empty lacks its kind. *)
Theorem kubectl_delete_checks env arguments doc :
  single_document env arguments doc ->
  (truthy doc = false ->
   call_tool env "kubectl_delete" arguments
   = (inr "Error: Invalid YAML content", []))
  /\ (forall fields metadata,
        doc = VDict fields -> fields <> [] ->
        default (VDict []) (assoc "metadata" fields) = VDict metadata ->
        (truthy (default VNone (assoc "name" metadata)) = false ->
         call_tool env "kubectl_delete" arguments
         = (inr "Error: Resource name not found in YAML", []))
        /\ (truthy (default VNone (assoc "name" metadata)) = true ->
            default (VStr "") (assoc "kind" fields) = VStr "" ->
            call_tool env "kubectl_delete" arguments
            = (inr "Error: Resource kind not found in YAML", []))).
Proof.
  intros Hdoc. rewrite (kubectl_delete_single _ _ _ Hdoc). rewrite bind_ret.
  split.
  - intros ->. reflexivity.
  - intros fields metadata -> Hne Hm.
    assert (Hf : truthy (VDict fields) = true)
      by (destruct fields; [contradiction | reflexivity]).
    rewrite Hf. simpl negb. cbv iota.
    cbn [value_get]. rewrite Hm, bind_ret.
    cbn [value_get]. rewrite bind_ret.
    split.
    + intros ->. reflexivity.
    + intros -> Hk. simpl negb. cbv iota.
      rewrite Hk, bind_ret. reflexivity.
Qed.

Lemma sample_single_document (text : string) (doc : value) :
  text <> "" ->
  single_document (with_yaml Sample.env text [doc])
    {[ "yaml_content" := VStr text ]} doc.
Proof.
  intros Ht. exists text. split; [reflexivity | split; [exact Ht |]].
  unfold with_yaml, override. cbn [yaml_stream]. rewrite String.eqb_refl. reflexivity.
Qed.

(** A manifest with a kind and no metadata: the name is missed first. *)
Lemma kubectl_delete_checks_witness :
  call_tool (with_yaml Sample.env "kind: Pod" [VDict [("kind", VStr "Pod")]])
    "kubectl_delete" {[ "yaml_content" := VStr "kind: Pod" ]}
  = (inr "Error: Resource name not found in YAML", []).
Proof.
  refine (proj1 (proj2 (kubectl_delete_checks _ _ _
                          (sample_single_document "kind: Pod" _ _))
                   [("kind", VStr "Pod")] [] eq_refl _ eq_refl) eq_refl);
    discriminate.
Defined.

(** X11. A manifest of the wrong shape is answered as a failed deletion
    that names the offending type, without a control-plane call: a
    document that is not a mapping and a [metadata] that is not a mapping
    have no [get], a [kind] that is not a string has no [lower]. *)
Theorem kubectl_delete_wrong_shape env arguments doc :
  single_document env arguments doc ->
  truthy doc = true ->
  ((forall fields, doc <> VDict fields) ->
   call_tool env "kubectl_delete" arguments
   = (inr ("Error deleting resource: '" ++ type_name doc
           ++ "' object has no attribute 'get'"), []))
  /\ (forall fields metadata,
        doc = VDict fields ->
        assoc "metadata" fields = Some metadata ->
        ((forall entries, metadata <> VDict entries) ->
         call_tool env "kubectl_delete" arguments
         = (inr ("Error deleting resource: '" ++ type_name metadata
                 ++ "' object has no attribute 'get'"), []))
        /\ (forall entries kind,
              metadata = VDict entries ->
              truthy (default VNone (assoc "name" entries)) = true ->
              assoc "kind" fields = Some kind ->
              (forall s, kind <> VStr s) ->
              call_tool env "kubectl_delete" arguments
              = (inr ("Error deleting resource: '" ++ type_name kind
                      ++ "' object has no attribute 'lower'"), []))).
Proof.
  intros Hdoc Htruthy. rewrite (kubectl_delete_single _ _ _ Hdoc). rewrite bind_ret.
  rewrite Htruthy. simpl negb. cbv iota. split.
  - intros Hnot. destruct doc; try reflexivity. destruct (Hnot entries eq_refl).
  - intros fields metadata -> Hm.
    assert (Hm' : default (VDict []) (assoc "metadata" fields) = metadata)
      by (rewrite Hm; reflexivity).
    cbn [value_get]. rewrite Hm', bind_ret. split.
    + intros Hnot. destruct metadata; try reflexivity. destruct (Hnot entries eq_refl).
    + intros entries kind -> Hname Hk Hnot.
      assert (Hk' : default (VStr "") (assoc "kind" fields) = kind)
        by (rewrite Hk; reflexivity).
      cbn [value_get]. rewrite bind_ret, Hname. simpl negb. cbv iota.
      rewrite Hk', bind_ret.
      destruct kind; try reflexivity. destruct (Hnot s eq_refl).
Qed.

(** A manifest that is a plain scalar, and one whose metadata is empty. *)
Lemma kubectl_delete_wrong_shape_witness :
  call_tool (with_yaml Sample.env "web" [VStr "web"])
    "kubectl_delete" {[ "yaml_content" := VStr "web" ]}
  = (inr "Error deleting resource: 'str' object has no attribute 'get'", []).
Proof.
  refine (proj1 (kubectl_delete_wrong_shape _ _ (VStr "web")
                   (sample_single_document "web" _ _) eq_refl) _);
    discriminate.
Defined.

(** X12. For a usable manifest of kind pod, deployment or service, the
    one control-plane call is the deletion of that kind, and the answer
    follows it: the acknowledgement with kind, name and namespace when
    the call returns, the failure text when it raises. *)
Theorem kubectl_delete_outcome env arguments text metadata name kind :
  usable_manifest env arguments text metadata name kind ->
  let namespace := delete_namespace arguments metadata in
  (lower kind = "pod" ->
   call_tool env "kubectl_delete" arguments
   = (inr (deleted_answer "pod" name namespace
             (delete_namespaced_pod env name namespace)),
      [delete_namespaced_pod_call name namespace]))
  /\ (lower kind = "deployment" ->
      call_tool env "kubectl_delete" arguments
      = (inr (deleted_answer "deployment" name namespace
                (delete_namespaced_deployment env name namespace)),
         [delete_namespaced_deployment_call name namespace]))
  /\ (lower kind = "service" ->
      call_tool env "kubectl_delete" arguments
      = (inr (deleted_answer "service" name namespace
                (delete_namespaced_service env name namespace)),
         [delete_namespaced_service_call name namespace])).
Proof.
  intros Hm namespace. rewrite (kubectl_delete_usable _ _ _ _ _ _ Hm).
  fold namespace. unfold delete_resource, deleted_answer.
  repeat split; intros ->; simpl String.eqb; cbv iota.
  - destruct (delete_namespaced_pod env name namespace); reflexivity.
  - destruct (delete_namespaced_deployment env name namespace); reflexivity.
  - destruct (delete_namespaced_service env name namespace); reflexivity.
Qed.

Lemma sample_web_manifest :
  usable_manifest Sample.env {[ "yaml_content" := VStr Sample.pod_web_yaml ]}
    Sample.pod_web_yaml [("name", VStr "web")] (VStr "web") "Pod".
Proof.
  split; try reflexivity; try discriminate.
  eexists. repeat split; reflexivity.
Qed.

(** Deleting the pod [web] of the sample cluster. *)
Lemma kubectl_delete_outcome_witness :
  call_tool Sample.env "kubectl_delete" {[ "yaml_content" := VStr Sample.pod_web_yaml ]}
  = (inr "Successfully deleted pod/web from namespace default",
     [delete_namespaced_pod_call (VStr "web") (VStr "default")]).
Proof.
  exact (proj1 (kubectl_delete_outcome Sample.env _ _ _ _ _ sample_web_manifest)
               eq_refl).
Defined.

(** X13. The namespace of a deletion: a namespace argument that is truthy
    wins over the manifest; one that is absent, null or empty gives way to
    the manifest's [metadata.namespace], whatever that holds; and only
    when the manifest has none does the default namespace apply. *)
Theorem delete_namespace_precedence env arguments text metadata name kind :
  usable_manifest env arguments text metadata name kind ->
  lower kind = "pod" ->
  (truthy (arguments_get arguments "namespace") = true ->
   calls (call_tool env "kubectl_delete" arguments)
   = [delete_namespaced_pod_call name (arguments_get arguments "namespace")])
  /\ (truthy (arguments_get arguments "namespace") = false ->
      (forall namespace,
         assoc "namespace" metadata = Some namespace ->
         calls (call_tool env "kubectl_delete" arguments)
         = [delete_namespaced_pod_call name namespace])
      /\ (assoc "namespace" metadata = None ->
          calls (call_tool env "kubectl_delete" arguments)
          = [delete_namespaced_pod_call name (VStr "default")])).
Proof.
  intros Hm Hk. rewrite (kubectl_delete_usable _ _ _ _ _ _ Hm).
  rewrite calls_try_except. unfold delete_resource. rewrite Hk.
  simpl String.eqb. cbv iota.
  rewrite calls_bind_pure by reflexivity. rewrite calls_invoke.
  unfold delete_namespace.
  split; [intros ->; reflexivity | intros ->; split].
  - intros namespace ->. reflexivity.
  - intros ->. reflexivity.
Qed.

(** The pod [web] deleted with an empty namespace argument: the manifest
    has no namespace, so the default applies. *)
Lemma delete_namespace_precedence_witness :
  calls (call_tool Sample.env "kubectl_delete"
           {[ "yaml_content" := VStr Sample.pod_web_yaml; "namespace" := VStr "" ]})
  = [delete_namespaced_pod_call (VStr "web") (VStr "default")].
Proof.
  refine (proj2 (proj2 (delete_namespace_precedence Sample.env
                   {[ "yaml_content" := VStr Sample.pod_web_yaml; "namespace" := VStr "" ]}
                   Sample.pod_web_yaml [("name", VStr "web")] (VStr "web") "Pod"
                   _ eq_refl) eq_refl) eq_refl).
  split; try reflexivity; try discriminate.
  eexists. repeat split; reflexivity.
Defined.

(** ** The steps of [kubectl_apply] *)

(** [kubectl_apply] on a manifest the decoder reads as [docs]. *)
Lemma kubectl_apply_decoded env arguments text docs :
  arguments_get arguments "yaml_content" = VStr text ->
  text <> "" ->
  yaml_stream env text = YamlDocs docs ->
  call_tool env "kubectl_apply" arguments
  = try_except
      (let* _ := invoke (create_from_yaml_call docs (arguments_get arguments "namespace"))
                        (create_from_yaml env docs (arguments_get arguments "namespace")) in
       let* doc := first_doc docs in
       let* metadata := value_get doc "metadata" (VDict []) in
       let* resource_name := value_get metadata "name" (VStr "unknown") in
       let* doc' := first_doc docs in
       let* resource_kind := value_get doc' "kind" (VStr "unknown") in
       ret ("Successfully applied " ++ str resource_kind ++ "/" ++ str resource_name))
      (fun e => ret ("Error applying manifest: " ++ exn_str e)).
Proof.
  intros Hc Ht Hy.
  unfold call_tool, kubectl_apply. simpl String.eqb. cbv iota.
  rewrite Hc, (truthy_VStr _ Ht). simpl negb. cbv iota.
  unfold safe_load_all. rewrite Hy, bind_ret. reflexivity.
Qed.

(** X14. A successful apply submits all documents of the manifest in one
    batch, with the namespace argument as given, and acknowledges the
    first document only: its kind as written and its [metadata.name],
    each replaced by the word unknown when missing. *)
Theorem kubectl_apply_acknowledges_first env arguments text fields docs metadata :
  arguments_get arguments "yaml_content" = VStr text ->
  text <> "" ->
  yaml_stream env text = YamlDocs (VDict fields :: docs) ->
  create_from_yaml env (VDict fields :: docs) (arguments_get arguments "namespace")
  = inr tt ->
  default (VDict []) (assoc "metadata" fields) = VDict metadata ->
  call_tool env "kubectl_apply" arguments
  = (inr ("Successfully applied "
          ++ str (default (VStr "unknown") (assoc "kind" fields)) ++ "/"
          ++ str (default (VStr "unknown") (assoc "name" metadata))),
     [create_from_yaml_call (VDict fields :: docs)
        (arguments_get arguments "namespace")]).
Proof.
  intros Hc Ht Hy Hcreate Hm.
  rewrite (kubectl_apply_decoded _ _ _ _ Hc Ht Hy), Hcreate, bind_invoke.
  cbn [first_doc]. rewrite ?bind_ret. cbn [value_get]. rewrite Hm, ?bind_ret.
  cbn [value_get first_doc]. rewrite ?bind_ret. cbn [value_get first_doc].
  rewrite ?bind_ret. reflexivity.
Qed.

(** The two-pod manifest applied to the sample cluster. *)
Lemma kubectl_apply_acknowledges_first_witness :
  call_tool Sample.env "kubectl_apply" {[ "yaml_content" := VStr Sample.two_pods_yaml ]}
  = (inr "Successfully applied Pod/web",
     [create_from_yaml_call [Sample.manifest "Pod" "web"; Sample.manifest "Pod" "db"]
        VNone]).
Proof.
  refine (kubectl_apply_acknowledges_first Sample.env
            {[ "yaml_content" := VStr Sample.two_pods_yaml ]} Sample.two_pods_yaml
            _ [Sample.manifest "Pod" "db"] [("name", VStr "web")]
            eq_refl _ eq_refl eq_refl eq_refl).
  discriminate.
Defined.

(** X15. An apply can fail after its batch was created: when the first
    document is not a mapping (an empty document, a scalar, a list), the
    batch is submitted all the same, and if the control plane accepts it
    the answer is still the text of a failed apply, naming the type that
    has no [get]. *)
Theorem kubectl_apply_fails_after_create env arguments text doc docs :
  arguments_get arguments "yaml_content" = VStr text ->
  text <> "" ->
  yaml_stream env text = YamlDocs (doc :: docs) ->
  create_from_yaml env (doc :: docs) (arguments_get arguments "namespace") = inr tt ->
  (forall fields, doc <> VDict fields) ->
  call_tool env "kubectl_apply" arguments
  = (inr ("Error applying manifest: '" ++ type_name doc
          ++ "' object has no attribute 'get'"),
     [create_from_yaml_call (doc :: docs) (arguments_get arguments "namespace")]).
Proof.
  intros Hc Ht Hy Hcreate Hnot.
  rewrite (kubectl_apply_decoded _ _ _ _ Hc Ht Hy), Hcreate, bind_invoke.
  cbn [first_doc]. rewrite bind_ret.
  destruct doc; try reflexivity. destruct (Hnot entries eq_refl).
Qed.

(** A manifest that opens with an empty document, then a pod. *)
Lemma kubectl_apply_fails_after_create_witness :
  call_tool (with_yaml Sample.env "--- # none" [VNone; Sample.manifest "Pod" "web"])
    "kubectl_apply" {[ "yaml_content" := VStr "--- # none" ]}
  = (inr "Error applying manifest: 'NoneType' object has no attribute 'get'",
     [create_from_yaml_call [VNone; Sample.manifest "Pod" "web"] VNone]).
Proof.
  refine (kubectl_apply_fails_after_create
            (with_yaml Sample.env "--- # none" [VNone; Sample.manifest "Pod" "web"])
            {[ "yaml_content" := VStr "--- # none" ]} "--- # none"
            VNone [Sample.manifest "Pod" "web"] eq_refl _ eq_refl eq_refl _);
    discriminate.
Defined.

(** X16. The failures of an apply are told apart by the call log: a
    manifest the decoder rejects, or a [yaml_content] that is no text, is
    answered without any call; a batch the control plane rejects is
    answered after the one create call; each time the text is the cause
    behind the prefix of a failed apply. *)
Theorem kubectl_apply_failures env arguments :
  (forall text e,
     arguments_get arguments "yaml_content" = VStr text ->
     text <> "" ->
     yaml_stream env text = YamlError e ->
     call_tool env "kubectl_apply" arguments
     = (inr ("Error applying manifest: " ++ exn_str e), []))
  /\ (forall content,
        arguments_get arguments "yaml_content" = content ->
        truthy content = true ->
        (forall text, content <> VStr text) ->
        call_tool env "kubectl_apply" arguments
        = (inr ("Error applying manifest: '" ++ type_name content
                ++ "' object has no attribute 'read'"), []))
  /\ (forall text docs e,
        arguments_get arguments "yaml_content" = VStr text ->
        text <> "" ->
        yaml_stream env text = YamlDocs docs ->
        create_from_yaml env docs (arguments_get arguments "namespace") = inl e ->
        call_tool env "kubectl_apply" arguments
        = (inr ("Error applying manifest: " ++ exn_str e),
           [create_from_yaml_call docs (arguments_get arguments "namespace")])).
Proof.
  split; [| split].
  - intros text e Hc Ht Hy.
    unfold call_tool, kubectl_apply. simpl String.eqb. cbv iota.
    rewrite Hc, (truthy_VStr _ Ht). simpl negb. cbv iota.
    unfold safe_load_all. rewrite Hy. reflexivity.
  - intros content Hc Htruthy Hnot.
    unfold call_tool, kubectl_apply. simpl String.eqb. cbv iota.
    rewrite Hc, Htruthy. simpl negb. cbv iota.
    destruct content; try reflexivity. destruct (Hnot s eq_refl).
  - intros text docs e Hc Ht Hy Hcreate.
    rewrite (kubectl_apply_decoded _ _ _ _ Hc Ht Hy), Hcreate. reflexivity.
Qed.

(** A text the sample decoder rejects, and a number as the manifest. *)
Lemma kubectl_apply_failures_witness :
  call_tool Sample.env "kubectl_apply" {[ "yaml_content" := VStr "kind: [" ]}
  = (inr "Error applying manifest: while scanning the manifest", [])
  /\ call_tool Sample.env "kubectl_apply" {[ "yaml_content" := VInt 7 ]}
     = (inr "Error applying manifest: 'int' object has no attribute 'read'", []).
Proof.
  pose proof (kubectl_apply_failures Sample.env {[ "yaml_content" := VStr "kind: [" ]})
    as (Hdecode & _ & _).
  pose proof (kubectl_apply_failures Sample.env {[ "yaml_content" := VInt 7 ]})
    as (_ & Htype & _).
  split.
  - apply (Hdecode "kind: [" (Exn LibraryError "while scanning the manifest"));
      [reflexivity | discriminate | reflexivity].
  - apply (Htype (VInt 7)); [reflexivity | reflexivity | discriminate].
Defined.

(** ** The summary of a node *)

Lemma split_no_separator (sep : ascii) (s : string) :
  has_char sep s = false -> split sep s = [s].
Proof.
  induction s as [| c s IH]; [reflexivity |].
  cbn [has_char split]. destruct (Ascii.eqb c sep); [discriminate |].
  cbn [orb]. intros H. rewrite (IH H). reflexivity.
Qed.

Lemma split_at_separator (sep : ascii) (s r : string) :
  has_char sep s = false ->
  split sep (s ++ String sep r)
  = s :: split sep r.
Proof.
  induction s as [| c s IH]; cbn [has_char].
  - intros _. simpl. rewrite Ascii.eqb_refl. reflexivity.
  - destruct (Ascii.eqb c sep) eqn:Hc; [discriminate |].
    cbn [orb]. intros H. simpl. rewrite Hc, (IH H). reflexivity.
Qed.

Lemma contains_prefix (p s : string) : contains p (p ++ s) = true.
Proof.
  destruct p as [| c p]; [destruct s; reflexivity |].
  pose proof (prefix_app (String c p) s) as H.
  simpl in *. rewrite H. reflexivity.
Qed.

Lemma role_of_role_label role :
  has_char "/" role = false -> role_of_label (role_label role) = ret (VStr role).
Proof.
  intros H. unfold role_of_label, role_label, role_marker.
  change ("node-role.kubernetes.io" ++ "/" ++ role)
    with ("node-role.kubernetes.io" ++ String "/" role).
  rewrite split_at_separator by reflexivity.
  rewrite (split_no_separator _ _ H). reflexivity.
Qed.

Lemma role_of_label_no_separator label :
  has_char "/" label = false ->
  role_of_label label = raise (Exn IndexError "list index out of range").
Proof. intros H. unfold role_of_label. rewrite (split_no_separator _ _ H). reflexivity. Qed.

Lemma role_of_label_outcome label :
  (exists role, role_of_label label = ret role)
  \/ role_of_label label = raise (Exn IndexError "list index out of range").
Proof.
  unfold role_of_label. destruct (split "/" label) as [| a [| b l]]; eauto.
Qed.

Lemma roles_fail (keys : list string) :
  existsb (fun key => negb (has_char "/" key)) keys = true ->
  mapM role_of_label keys = raise (Exn IndexError "list index out of range").
Proof.
  induction keys as [| key keys IH]; [discriminate |].
  cbn [existsb mapM].
  destruct (has_char "/" key) eqn:Hs; cbn [negb orb].
  - intros H. rewrite (IH H).
    destruct (role_of_label_outcome key) as [[role ->] | ->]; reflexivity.
  - intros _. rewrite (role_of_label_no_separator _ Hs). reflexivity.
Qed.

Lemma node_summary_parts node metadata labels conditions addresses info :
  node_parts node metadata labels conditions addresses info ->
  node_summary node
  = (let* roles := node_roles labels in
     ret (VDict [
       ("name", opt_str (meta_name metadata));
       ("status", VStr (match conditions_get conditions "Ready" with
                        | Some "True" => "Ready"
                        | _ => "NotReady"
                        end));
       ("roles", roles);
       ("version", VStr (info_kubelet_version info));
       ("internal_ip", VStr (internal_ip addresses))])).
Proof.
  intros [Hm Hl (status & Hs & Hc & Ha & Hi)].
  unfold node_summary. rewrite Hs. cbn [getattr]. rewrite bind_ret, Hc.
  cbn [iter]. rewrite bind_ret, Hm. cbn [getattr]. rewrite bind_ret, Hl.
  cbn [getattr]. rewrite bind_ret, Hi, Ha.
  destruct (node_roles labels) as [[e | roles] tr]; reflexivity.
Qed.

Lemma conditions_get_last (conditions : list V1Condition) (acc : option string) :
  fold_left (fun acc c => if String.eqb (cond_type c) "Ready"
                          then Some (cond_status c) else acc) conditions acc
  = match last_ready conditions with
    | Some c => Some (cond_status c)
    | None => acc
    end.
Proof.
  unfold last_ready. revert acc.
  induction conditions as [| c cs IH]; intros acc; [reflexivity |].
  cbn [fold_left List.filter]. rewrite IH.
  destruct (String.eqb (cond_type c) "Ready"); [| reflexivity].
  rewrite last_cons. destruct (last _); reflexivity.
Qed.

(** X17. The roles of a node: when no label key holds the role marker the
    roles are the one-element list of the placeholder; when the labels are
    role labels, the roles are what follows the marker and its slash, in
    the order of the labels. *)
Theorem node_roles_reported (labels : str_dict) :
  (forallb (fun key => negb (contains role_marker key)) (map fst labels) = true ->
   node_roles labels = ret (VList [VStr "<none>"]))
  /\ (forall roles,
        roles <> [] ->
        forallb (fun role => negb (has_char "/" role)) roles = true ->
        map fst labels = map role_label roles ->
        node_roles labels = ret (VList (map VStr roles))).
Proof.
  unfold node_roles. split.
  - intros H.
    assert (Hf : List.filter (contains "node-role.kubernetes.io") (map fst labels) = []).
    { induction (map fst labels) as [| key keys IH]; [reflexivity |].
      cbn [forallb] in H. apply andb_prop in H as [Hk Hks].
      unfold role_marker in Hk. cbn [List.filter].
      destruct (contains "node-role.kubernetes.io" key); [discriminate |]. auto. }
    rewrite Hf. reflexivity.
  - intros roles Hne Hroles ->.
    assert (Hm : mapM role_of_label
                   (List.filter (contains "node-role.kubernetes.io") (map role_label roles))
                 = ret (map VStr roles)).
    { clear Hne. induction roles as [| role roles IH]; [reflexivity |].
      cbn [forallb] in Hroles. apply andb_prop in Hroles as [Hr Hrs].
      cbn [map List.filter]. unfold role_label at 1, role_marker.
      rewrite contains_prefix. cbn [mapM].
      change ("node-role.kubernetes.io" ++ "/" ++ role) with (role_label role).
      rewrite role_of_role_label
        by (destruct (has_char "/" role); [discriminate | reflexivity]).
      rewrite bind_ret, (IH Hrs), bind_ret. reflexivity. }
    rewrite Hm, bind_ret. destruct roles; [contradiction | reflexivity].
Qed.

(** A node with the master and the worker label. *)
Lemma node_roles_reported_witness :
  node_roles [("node-role.kubernetes.io/master", ""); ("node-role.kubernetes.io/worker", "")]
  = ret (VList [VStr "master"; VStr "worker"]).
Proof.
  refine (proj2 (node_roles_reported
                   [("node-role.kubernetes.io/master", "");
                    ("node-role.kubernetes.io/worker", "")])
                ["master"; "worker"] _ eq_refl eq_refl).
  discriminate.
Defined.

(** X18. A role label without a slash breaks the summary of its node: a
    label key that holds the role marker and no slash makes a get of that
    node answer with the text of an index error instead of the record. *)
Theorem role_label_without_slash env arguments token node
    metadata labels conditions addresses info :
  arguments_get arguments "resource_type" = VStr token ->
  resolve token = Some Node ->
  truthy (arguments_get arguments "name") = true ->
  read_node env (arguments_get arguments "name") = inr node ->
  node_parts node metadata labels conditions addresses info ->
  existsb (fun key => contains role_marker key && negb (has_char "/" key))
          (map fst labels) = true ->
  call_tool env "kubectl_get" arguments
  = (inr "Error getting resource: list index out of range",
     [read_node_call (arguments_get arguments "name")]).
Proof.
  intros Htok Hr Hname Hread Hparts Hbad.
  assert (Hroles : node_roles labels
                   = raise (Exn IndexError "list index out of range")).
  { unfold node_roles. rewrite roles_fail; [reflexivity |].
    induction (map fst labels) as [| key keys IH]; [discriminate |].
    cbn [existsb] in Hbad. unfold role_marker in *. cbn [List.filter].
    destruct (contains "node-role.kubernetes.io" key); cbn [andb orb] in Hbad.
    - cbn [existsb]. destruct (negb (has_char "/" key)); [reflexivity |]. auto.
    - auto. }
  unfold call_tool, kubectl_get. simpl String.eqb. cbv iota.
  rewrite Htok, (truthy_VStr _ (resolve_nonempty _ _ Hr)). simpl negb. cbv iota.
  unfold value_lower. rewrite bind_ret.
  unfold get_result. chain token. rewrite Hname, Hread, bind_invoke.
  rewrite (node_summary_parts _ _ _ _ _ _ Hparts), Hroles. reflexivity.
Qed.

Lemma node_with_parts labels conditions :
  node_parts (node_with labels conditions) (Sample.meta "worker-2" labels) labels
    conditions []
    {| info_kubelet_version := "v1.30.0"; info_os_image := "Linux";
       info_container_runtime_version := "containerd://1.7" |}.
Proof. split; [reflexivity | reflexivity | eexists; repeat split; reflexivity]. Qed.

(** A node whose only label is a dotted name around the marker. *)
Lemma role_label_without_slash_witness :
  call_tool (with_node Sample.env (node_with [("lab.node-role.kubernetes.io", "x")] []))
    "kubectl_get" {[ "resource_type" := VStr "node"; "name" := VStr "worker-2" ]}
  = (inr "Error getting resource: list index out of range",
     [read_node_call (VStr "worker-2")]).
Proof.
  exact (role_label_without_slash
           (with_node Sample.env (node_with [("lab.node-role.kubernetes.io", "x")] []))
           {[ "resource_type" := VStr "node"; "name" := VStr "worker-2" ]}
           "node" _ _ _ _ _ _ eq_refl eq_refl eq_refl eq_refl
           (node_with_parts _ _) eq_refl).
Defined.

(** The test [status == "True"], as the pattern of the embedding. *)
Lemma status_is_true {A} (status : string) (a b : A) :
  match Some status with Some "True" => a | _ => b end
  = if String.eqb status "True" then a else b.
Proof.
  destruct status as [| c1 s]; [reflexivity |].
  destruct c1 as [[] [] [] [] [] [] [] []]; try reflexivity.
  destruct s as [| c2 s]; [reflexivity |].
  destruct c2 as [[] [] [] [] [] [] [] []]; try reflexivity.
  destruct s as [| c3 s]; [reflexivity |].
  destruct c3 as [[] [] [] [] [] [] [] []]; try reflexivity.
  destruct s as [| c4 s]; [reflexivity |].
  destruct c4 as [[] [] [] [] [] [] [] []]; try reflexivity.
  destruct s; reflexivity.
Qed.

(** X19. The status of a node follows the last of its conditions of type
    Ready: the node is reported Ready exactly when that condition has the
    status True, and NotReady when it has another status or when there is
    no such condition. *)
Theorem node_readiness node metadata labels conditions addresses info roles :
  node_parts node metadata labels conditions addresses info ->
  node_roles labels = ret roles ->
  exists fields,
    node_summary node = ret (VDict fields)
    /\ assoc "status" fields
       = Some (VStr (match last_ready conditions with
                     | Some c => if String.eqb (cond_status c) "True"
                                 then "Ready" else "NotReady"
                     | None => "NotReady"
                     end)).
Proof.
  intros Hparts Hroles.
  rewrite (node_summary_parts _ _ _ _ _ _ Hparts), Hroles, bind_ret.
  eexists. split; [reflexivity |]. simpl assoc.
  unfold conditions_get. rewrite conditions_get_last.
  destruct (last_ready conditions) as [c |]; [| reflexivity].
  rewrite status_is_true. reflexivity.
Qed.

(** A node that was not ready and then became ready. *)
Lemma node_readiness_witness :
  exists fields,
    node_summary
      (node_with [] [ {| cond_type := "Ready"; cond_status := "False"; cond_reason := None |};
                      {| cond_type := "MemoryPressure"; cond_status := "False"; cond_reason := None |};
                      {| cond_type := "Ready"; cond_status := "True"; cond_reason := None |} ])
    = ret (VDict fields)
    /\ assoc "status" fields = Some (VStr "Ready").
Proof.
  exact (node_readiness _ _ _ _ _ _ (VList [VStr "<none>"])
           (node_with_parts [] _) eq_refl).
Defined.

(** ** The containers of a described pod *)

Lemma lookup_combine {A B} (l1 : list A) (l2 : list B) (i : nat) (a : A) (b : B) :
  l1 !! i = Some a -> l2 !! i = Some b -> combine l1 l2 !! i = Some (a, b).
Proof.
  revert l2 i. induction l1 as [| x l1 IH]; intros l2 i H1 H2;
    [destruct i; discriminate H1 |].
  destruct l2 as [| y l2]; [destruct i; discriminate H2 |].
  destruct i as [| i]; cbn in *.
  - injection H1 as ->. injection H2 as ->. reflexivity.
  - apply IH; assumption.
Qed.

Lemma lookup_map {A B} (f : A -> B) (l : list A) (i : nat) (a : A) :
  l !! i = Some a -> map f l !! i = Some (f a).
Proof.
  revert i. induction l as [| x l IH]; intros i H; [destruct i; discriminate H |].
  destruct i as [| i]; cbn in *.
  - injection H as ->. reflexivity.
  - apply IH, H.
Qed.

(** X20. A describe of a pod pairs the containers of the spec with the
    container statuses by position and stops at the shorter list: the
    record at each position shows the name and image of the container at
    that position with the readiness, restart count and state of the
    status at that position, and there are as many records as the shorter
    list has entries, so a pod with fewer statuses than containers shows
    fewer containers. When the statuses are absent or empty every
    container is shown, not ready, with no restart and an unknown state. *)
Theorem described_containers pod metadata status spec :
  pod_metadata pod = Some metadata ->
  pod_status pod = Some status ->
  pod_spec pod = Some spec ->
  exists fields records,
    pod_detail pod = ret (VDict fields)
    /\ assoc "containers" fields = Some (VList records)
    /\ (forall statuses,
          podstatus_container_statuses status = Some statuses ->
          statuses <> [] ->
          length records
          = Nat.min (length (podspec_containers spec)) (length statuses)
          /\ (forall i c st,
                podspec_containers spec !! i = Some c ->
                statuses !! i = Some st ->
                records !! i
                = Some (VDict [("name", VStr (container_name c));
                               ("image", opt_str (container_image c));
                               ("ready", VBool (cs_ready st));
                               ("restart_count", VInt (cs_restart_count st));
                               ("state", VStr (cs_state st))])))
    /\ (podstatus_container_statuses status = None
        \/ podstatus_container_statuses status = Some [] ->
        records
        = map (fun c => VDict [("name", VStr (container_name c));
                               ("image", opt_str (container_image c));
                               ("ready", VBool false);
                               ("restart_count", VInt 0);
                               ("state", VStr "unknown")])
              (podspec_containers spec)).
Proof.
  intros Hm Hs Hp. unfold pod_detail. rewrite Hm, Hs, Hp.
  cbn [getattr]. rewrite !bind_ret.
  eexists. eexists. split; [reflexivity |]. split; [reflexivity |]. split.
  - intros statuses -> Hne. unfold zip_statuses.
    destruct statuses as [| cs css]; [contradiction |]. split.
    + rewrite length_map, length_combine, length_map. reflexivity.
    + intros i c st Hc Hst.
      apply (lookup_map container_record _ i (c, Some st)).
      apply lookup_combine; [exact Hc |].
      apply (lookup_map Some _ i st), Hst.
  - intros [-> | ->]; unfold zip_statuses; rewrite map_map; reflexivity.
Qed.

(** The pod [web] with one status for its two containers: one record,
    the first container with that status. *)
Lemma described_containers_witness :
  exists fields records,
    pod_detail
      {| pod_metadata := pod_metadata Sample.pod_web;
         pod_spec := pod_spec Sample.pod_web;
         pod_status := Some {| podstatus_phase := Some "Running";
                               podstatus_pod_ip := None;
                               podstatus_container_statuses :=
                                 Some [Sample.container_status true 4];
                               podstatus_conditions := None |} |}
    = ret (VDict fields)
    /\ assoc "containers" fields = Some (VList records)
    /\ length records = 1%nat
    /\ records !! 0%nat
       = Some (VDict [("name", VStr "nginx"); ("image", VStr "nginx:1.27");
                      ("ready", VBool true); ("restart_count", VInt 4);
                      ("state", VStr "{'running': {}}")]).
Proof.
  edestruct (described_containers
               {| pod_metadata := pod_metadata Sample.pod_web;
                  pod_spec := pod_spec Sample.pod_web;
                  pod_status := Some {| podstatus_phase := Some "Running";
                                        podstatus_pod_ip := None;
                                        podstatus_container_statuses :=
                                          Some [Sample.container_status true 4];
                                        podstatus_conditions := None |} |})
    as (fields & records & Hd & Hc & Hpaired & _); try reflexivity.
  destruct (Hpaired [Sample.container_status true 4] eq_refl ltac:(discriminate))
    as [Hlen Hat].
  exists fields, records. split; [exact Hd | split; [exact Hc | split; [exact Hlen |]]].
  exact (Hat 0%nat _ _ eq_refl eq_refl).
Defined.

(** ** The readiness fraction *)

Lemma sum_ones {A} (l : list A) (acc : Z) :
  fold_left Z.add (map (fun _ => 1) l) acc = acc + Z.of_nat (length l).
Proof.
  revert acc. induction l as [| x l IH]; intros acc; cbn [map fold_left length].
  - lia.
  - rewrite IH. lia.
Qed.

(** X21. The readiness fraction of a pod never exceeds one: its numerator
    is the number of ready container statuses, its denominator the number
    of container statuses, none when they are absent. *)
Theorem pod_ready_bounds (statuses : option (list V1ContainerStatus)) :
  exists ready total : nat,
    pod_ready statuses = str_int (Z.of_nat ready) ++ "/" ++ str_int (Z.of_nat total)
    /\ total = length (default [] statuses)
    /\ ready = length (List.filter cs_ready (default [] statuses))
    /\ (ready <= total)%nat.
Proof.
  exists (length (List.filter cs_ready (default [] statuses))),
         (length (default [] statuses)).
  split; [| split; [reflexivity | split; [reflexivity |]]].
  - unfold pod_ready, sum_ints. rewrite sum_ones. reflexivity.
  - apply List.filter_length_le.
Qed.

(** ** Lookups that fail *)

(** X22. A lookup the control plane refuses, such as one of an object
    that does not exist, is answered with the text of its exception
    behind the prefix of the operation, after that one call: by get for
    all five kinds, by describe for the four kinds it supports. *)
Theorem lookup_failure_reported env arguments token k e :
  arguments_get arguments "resource_type" = VStr token ->
  resolve token = Some k ->
  truthy (arguments_get arguments "name") = true ->
  read_error env k (arguments_get arguments "name")
    (arguments_get_default arguments "namespace" (VStr "default")) = Some e ->
  call_tool env "kubectl_get" arguments
  = (inr ("Error getting resource: " ++ exn_str e),
     [read_call k (arguments_get arguments "name")
        (arguments_get_default arguments "namespace" (VStr "default"))])
  /\ (k <> Namespace ->
      call_tool env "kubectl_describe" arguments
      = (inr ("Error describing resource: " ++ exn_str e),
         [read_call k (arguments_get arguments "name")
            (arguments_get_default arguments "namespace" (VStr "default"))])).
Proof.
  intros Htok Hr Hname Herr. split; [| intros Hk];
    unfold call_tool, kubectl_get, kubectl_describe; simpl String.eqb; cbv iota;
    rewrite Htok, (truthy_VStr _ (resolve_nonempty _ _ Hr)), ?Hname;
    simpl negb; cbv iota; unfold value_lower; rewrite bind_ret;
    unfold get_result, describe_result, read_error, raised in *;
    destruct k; try contradiction; chain token; rewrite ?Hname;
    match type of Herr with
    | match ?answer with _ => _ end = _ =>
        destruct answer as [e' | x]; [injection Herr as -> | discriminate Herr]
    end;
    reflexivity.
Qed.

(** A pod the sample cluster does not hold. *)
Lemma lookup_failure_reported_witness :
  call_tool Sample.env "kubectl_get"
    {[ "resource_type" := VStr "pod"; "name" := VStr "gone" ]}
  = (inr "Error getting resource: (404) Reason: Not Found",
     [read_namespaced_pod_call (VStr "gone") (VStr "default")]).
Proof.
  exact (proj1 (lookup_failure_reported Sample.env
                  {[ "resource_type" := VStr "pod"; "name" := VStr "gone" ]}
                  "pod" Pod Sample.not_found eq_refl eq_refl eq_refl eq_refl)).
Defined.
